(** * AgriSmart backend: crop recommendation and yield prediction

    A shallow embedding of

    - [backend/app/ml_models/crop_model.py]: the rule table [RULES] and
      [CropRecommender] ([_match_rules], [recommend]);
    - [backend/app/ml_models/yield_model.py]: [YieldPredictor.predict]
      (lazy loading of the pickled model, label encoding of the features);
    - [backend/app/routes/yield_routes.py]: [predict_yield_route], with
      the document store as an opaque collaborator;
    - [backend/app/routes/crop_routes.py]: [get_crop_recommendations],

    followed by the properties the specification states about them.

    Python data is modelled as the code has it: a [str] is a sequence of
    code points, a [float] is a binary64 number (Rocq's primitive floats),
    a [dict] with string keys is a finite map, an exception is an explicit
    [Raise] outcome, an attribute of [self] a field of a record that is
    passed in and returned.  The [print] calls of the source are left
    out. *)

From Stdlib Require Import ZArith NArith List String Ascii Floats Lia.
From Stdlib Require Import Sorting.Permutation Sorting.Sorted.
From stdpp Require Import base decidable option list strings gmap.
Import ListNotations.

#[local] Set Warnings "-inexact-float".
#[local] Open Scope string_scope.
#[local] Open Scope list_scope.

(* ===================================================================== *)
(** * Python values                                                       *)
(* ===================================================================== *)

Module Py.

(** A Python [str]: its code points, in order. *)
Abbreviation pystr := (list N).

(** The code points of an ASCII literal of the source. *)
Definition str (s : string) : pystr :=
  map N_of_ascii (list_ascii_of_string s).

(** [str.isspace] on one code point: the code points CPython's
    [_PyUnicode_IsWhitespace] accepts (U+0009..U+000D, U+001C..U+0020,
    U+0085, U+00A0, U+1680, U+2000..U+200A, U+2028, U+2029, U+202F,
    U+205F, U+3000). *)
Definition isspace (c : N) : bool :=
  (((9 <=? c) && (c <=? 13)) || ((28 <=? c) && (c <=? 32))
   || (c =? 133) || (c =? 160) || (c =? 5760)
   || ((8192 <=? c) && (c <=? 8202))
   || (c =? 8232) || (c =? 8233) || (c =? 8239) || (c =? 8287)
   || (c =? 12288))%N.

(** [s.lstrip()], [s.rstrip()], [s.strip()] with no argument. *)
Fixpoint lstrip (s : pystr) : pystr :=
  match s with
  | [] => []
  | c :: s' => if isspace c then lstrip s' else s
  end.

Definition rstrip (s : pystr) : pystr := rev (lstrip (rev s)).

Definition strip (s : pystr) : pystr := rstrip (lstrip s).

(** The scalar values a decoded JSON body holds for a key: a string,
    [null], a boolean, an integer or a float.  A JSON array or object is
    not represented: a statement below that speaks of every request
    speaks of the requests whose values are scalars. *)
Inductive PyVal : Type :=
  | PStr (s : pystr)
  | PNone
  | PBool (b : bool)
  | PInt (z : Z)
  | PFloat (f : float).

(** The exceptions the modelled code can raise. *)
Inductive PyExc : Type :=
  | AttributeError
  | IndexError
  | KeyError
  | ValueError
  | IOError.

(** Running a piece of Python: a value, or an exception. *)
Inductive outcome (A : Type) : Type :=
  | Return (a : A)
  | Raise (e : PyExc).
Arguments Return {A} a.
Arguments Raise {A} e.

(** Sequencing: an exception ends the run.  With these instances
    [x ← m; k] reads as the statement [x = m] followed by [k]. *)
#[export] Instance outcome_bind : MBind outcome :=
  fun A B (k : A → outcome B) (m : outcome A) =>
    match m with
    | Return a => k a
    | Raise e => Raise e
    end.

#[export] Instance outcome_ret : MRet outcome := fun A a => Return a.

(** [v.strip()]: only a [str] has the method. *)
Definition py_strip (v : PyVal) : outcome pystr :=
  match v with
  | PStr s => Return (strip s)
  | _ => Raise AttributeError
  end.

(** [d.get(k, "")] on a dict with string keys. *)
Definition get (d : gmap string PyVal) (k : string) : PyVal :=
  default (PStr []) (d !! k).

(** [v == "literal"]: only a [str] with the same code points is equal to
    a [str]. *)
Definition eq_str (v : PyVal) (s : pystr) : bool :=
  match v with
  | PStr t => bool_decide (t = s)
  | _ => false
  end.

(** Truth value of a value ([not v] is its negation). *)
Definition truthy (v : PyVal) : bool :=
  match v with
  | PStr s => negb (bool_decide (s = []))
  | PNone => false
  | PBool b => b
  | PInt z => negb (z =? 0)%Z
  | PFloat f => negb (PrimFloat.eqb f 0%float)
  end.

End Py.

Export Py.

(* ===================================================================== *)
(** * crop_model.py                                                       *)
(* ===================================================================== *)

Module Crop.

(** One entry of [RULES]: a dict with the five keys below. *)
Record Rule : Type := mkRule {
  district : pystr;
  season : pystr;
  soil_types : list pystr;
  irrigation : list pystr;
  crops : list (pystr * float)
}.

(** One entry of ["top_predictions"]: [{"crop": c, "score": float(s)}]. *)
Record Prediction : Type := mkPrediction {
  crop : pystr;
  score : float
}.

(** The dict [recommend] returns. *)
Record Recommendation : Type := mkRecommendation {
  recommended_crop : pystr;
  top_predictions : list Prediction
}.

(** The module-level table. *)
Definition RULES : list Rule := [
  (* SIRUGUPPA (Ballari) *)
  {| district := str "Siruguppa"; season := str "Kharif";
     soil_types := [str "Red soil"; str "Black soil"; str "Alluvial soil"];
     irrigation := [str "Canal"; str "Borewell"];
     crops := [(str "Paddy", 0.55); (str "Maize", 0.25);
               (str "Cotton", 0.12); (str "Red gram", 0.08)]%float |};
  {| district := str "Siruguppa"; season := str "Rabi";
     soil_types := [str "Red soil"; str "Black soil"];
     irrigation := [str "Borewell"; str "Canal"];
     crops := [(str "Wheat", 0.4); (str "Chickpea", 0.35);
               (str "Sunflower", 0.25)]%float |};
  {| district := str "Siruguppa"; season := str "Zaid";
     soil_types := [str "Red soil"; str "Alluvial soil"];
     irrigation := [str "Borewell"];
     crops := [(str "Maize", 0.45); (str "Vegetables", 0.35);
               (str "Fodder maize", 0.20)]%float |};
  (* SINDHANUR (Raichur) *)
  {| district := str "Sindhanur"; season := str "Kharif";
     soil_types := [str "Red soil"; str "Black soil"; str "Alluvial soil"];
     irrigation := [str "Canal"; str "Borewell"];
     crops := [(str "Paddy", 0.65); (str "Maize", 0.2);
               (str "Soybean", 0.1); (str "Cotton", 0.05)]%float |};
  {| district := str "Sindhanur"; season := str "Rabi";
     soil_types := [str "Red soil"; str "Black soil"];
     irrigation := [str "Borewell"];
     crops := [(str "Paddy", 0.5); (str "Wheat", 0.25);
               (str "Chickpea", 0.25)]%float |};
  {| district := str "Sindhanur"; season := str "Zaid";
     soil_types := [str "Red soil"; str "Alluvial soil"];
     irrigation := [str "Borewell"];
     crops := [(str "Vegetables", 0.4); (str "Maize", 0.35);
               (str "Fodder maize", 0.25)]%float |};
  (* GANGAVATHI (Koppal) *)
  {| district := str "Gangavathi"; season := str "Kharif";
     soil_types := [str "Red soil"; str "Black soil"; str "Alluvial soil"];
     irrigation := [str "Canal"; str "Borewell"];
     crops := [(str "Paddy", 0.5); (str "Groundnut", 0.2);
               (str "Maize", 0.15); (str "Cotton", 0.15)]%float |};
  {| district := str "Gangavathi"; season := str "Rabi";
     soil_types := [str "Red soil"; str "Black soil"];
     irrigation := [str "Borewell"];
     crops := [(str "Groundnut", 0.4); (str "Sunflower", 0.3);
               (str "Chickpea", 0.3)]%float |};
  {| district := str "Gangavathi"; season := str "Zaid";
     soil_types := [str "Red soil"; str "Alluvial soil"];
     irrigation := [str "Borewell"];
     crops := [(str "Vegetables", 0.4); (str "Maize", 0.3);
               (str "Fodder maize", 0.3)]%float |};
  (* VIJAYPUR (Vijayapura) *)
  {| district := str "Vijaypur"; season := str "Kharif";
     soil_types := [str "Black soil"; str "Red soil"];
     irrigation := [str "Rainfed"; str "Borewell"];
     crops := [(str "Jowar", 0.45); (str "Bajra", 0.25);
               (str "Cotton", 0.2); (str "Red gram", 0.1)]%float |};
  {| district := str "Vijaypur"; season := str "Rabi";
     soil_types := [str "Black soil"];
     irrigation := [str "Rainfed"; str "Borewell"];
     crops := [(str "Wheat", 0.4); (str "Chickpea", 0.35);
               (str "Linseed", 0.25)]%float |};
  {| district := str "Vijaypur"; season := str "Zaid";
     soil_types := [str "Red soil"; str "Black soil"];
     irrigation := [str "Borewell"];
     crops := [(str "Vegetables", 0.5); (str "Fodder maize", 0.3);
               (str "Maize", 0.2)]%float |}
].

(** [sorted(crops, key=lambda x: x[1], reverse=True)].

    [sorted] is a stable sort that compares keys with [<] only; with
    [reverse=True] the order is descending and elements of equal key keep
    their order.  It is written here as the insertion sort with these
    properties: an element goes in front of the first element of the
    sorted tail whose key is not greater than its own.  On keys that [<]
    orders totally (floats other than NaN) a stable sort has one possible
    result, so this is the list [sorted] returns. *)
Fixpoint insert_desc (x : pystr * float) (l : list (pystr * float))
  : list (pystr * float) :=
  match l with
  | [] => [x]
  | y :: l' =>
      if PrimFloat.ltb (snd x) (snd y) then y :: insert_desc x l'
      else x :: y :: l'
  end.

Fixpoint sorted_desc (l : list (pystr * float)) : list (pystr * float) :=
  match l with
  | [] => []
  | x :: l' => insert_desc x (sorted_desc l')
  end.

(** The three lists the loop of [_match_rules] fills. *)
Record Buckets : Type := mkBuckets {
  exact_matches : list Rule;
  soil_matches : list Rule;
  season_matches : list Rule
}.

(** The fallback literal of [recommend] (lines 261-269). *)
Definition fallback_crops : list (pystr * float) :=
  [(str "Paddy", 0.4); (str "Maize", 0.35); (str "Chickpea", 0.25)]%float.

(** [[{"crop": c, "score": float(s)} for c, s in l]]; [float] of a float
    is that float. *)
Definition predictions_of (l : list (pystr * float)) : list Prediction :=
  map (fun cs => {| crop := fst cs; score := snd cs |}) l.

Section Catalog.

(** The table the recommender reads (the global [RULES]). *)
Variable rules : list Rule.

(** One iteration of [for rule in RULES] (lines 211-225). *)
Definition classify (district0 season0 soil_type irrigation_source : pystr)
    (acc : Buckets) (rule : Rule) : Buckets :=
  if negb (bool_decide (district rule = district0)) then acc
  else if negb (bool_decide (season rule = season0)) then acc
  else if bool_decide (soil_type ∈ soil_types rule)
          && bool_decide (irrigation_source ∈ irrigation rule)
  then {| exact_matches := exact_matches acc ++ [rule];
          soil_matches := soil_matches acc;
          season_matches := season_matches acc |}
  else if bool_decide (soil_type ∈ soil_types rule)
  then {| exact_matches := exact_matches acc;
          soil_matches := soil_matches acc ++ [rule];
          season_matches := season_matches acc |}
  else {| exact_matches := exact_matches acc;
          soil_matches := soil_matches acc;
          season_matches := season_matches acc ++ [rule] |}.

(** [_match_rules] (lines 194-231). *)
Definition _match_rules (district0 season0 soil_type irrigation_source : PyVal)
  : outcome (list Rule) :=
  district0 ← py_strip district0;
  season0 ← py_strip season0;
  soil_type ← py_strip soil_type;
  irrigation_source ← py_strip irrigation_source;
  let b := fold_left (classify district0 season0 soil_type irrigation_source)
             rules (mkBuckets [] [] []) in
  Return (match exact_matches b with
          | _ :: _ => exact_matches b
          | [] =>
              match soil_matches b with
              | _ :: _ => soil_matches b
              | [] => season_matches b
              end
          end).

(** The fallback branch of [recommend] (lines 259-269). *)
Definition fallback : outcome Recommendation :=
  match fallback_crops with
  | [] => Raise IndexError
  | c0 :: _ =>
      Return {| recommended_crop := fst c0;
                top_predictions := predictions_of fallback_crops |}
  end.

(** The rest of [recommend], for the rule taken (lines 273-288). *)
Definition recommend_rule (rule : Rule) : outcome Recommendation :=
  let crops_sorted := sorted_desc (crops rule) in
  match crops_sorted with
  | [] => Raise IndexError
  | c0 :: _ =>
      Return {| recommended_crop := fst c0;
                top_predictions := predictions_of (firstn 3 crops_sorted) |}
  end.

(** [recommend] (lines 233-288). *)
Definition recommend (input_data : gmap string PyVal)
  : outcome Recommendation :=
  let district0 := get input_data "district" in
  let soil_type := get input_data "soil_type" in
  let season0 := get input_data "season" in
  let irrigation_source := get input_data "irrigation_source" in
  matching_rules ← _match_rules district0 season0 soil_type irrigation_source;
  match matching_rules with
  | [] => fallback
  | rule :: _ => recommend_rule rule
  end.

End Catalog.

(** The global instance [crop_recommender], which reads [RULES]. *)
Definition crop_recommender (input_data : gmap string PyVal)
  : outcome Recommendation :=
  recommend RULES input_data.

End Crop.

(* ===================================================================== *)
(** * yield_model.py and yield_routes.py                                  *)
(* ===================================================================== *)

Module Yield.

(** A fitted [LabelEncoder]: its [classes_] (the distinct training values
    of the feature, sorted). *)
Record LabelEncoder : Type := mkLabelEncoder {
  classes_ : list pystr
}.

(** A cell of the one-row frame [input_df]: an integer code once the
    feature is encoded, the raw value of the request otherwise. *)
Inductive Cell : Type :=
  | Code (n : nat)
  | Raw (v : PyVal).

(** The dict [predict] returns; [prediction_id] is the number drawn for
    ["yield_<number>"]. *)
Record YieldResult : Type := mkYieldResult {
  predicted_yield : float;
  confidence : float;
  recommendations : list pystr;
  prediction_id : Z;
  data_source : pystr
}.

(** What the route answers: an [HTTPException] (an error response), or
    the success body with the id the store returned. *)
Inductive Response : Type :=
  | HTTPException (status_code : Z) (detail : string)
  | Success (result : YieldResult) (inserted_id : string).

(** [self.features] (line 15). *)
Definition features : list string :=
  ["state"; "district"; "crop_name"; "soil_type"; "season";
   "irrigation_source"].

(** [required_fields] and [model_features] of the route (lines 16, 22). *)
Definition required_fields : list string :=
  ["crop_name"; "soil_type"; "season"; "irrigation_source"; "state";
   "district"].

Definition model_features : list string :=
  ["state"; "district"; "crop_name"; "soil_type"; "season";
   "irrigation_source"].

(** [d[k]]: [KeyError] on an absent key. *)
Definition getitem (d : gmap string PyVal) (k : string) : outcome PyVal :=
  match d !! k with
  | Some v => Return v
  | None => Raise KeyError
  end.

(** [le.transform([s])[0]] for [s] among the classes: its position. *)
Fixpoint index_of (s : pystr) (l : list pystr) : nat :=
  match l with
  | [] => 0
  | c :: l' => if bool_decide (c = s) then 0 else S (index_of s l')
  end.

(** Lines 113-121: the code of one value.  A value outside [classes_]
    takes the [else] branch (line 119); a value the membership test
    cannot handle ends in the bare [except] (line 121); both assign 0. *)
Definition encode_value (le : LabelEncoder) (v : PyVal) : nat :=
  match v with
  | PStr s =>
      if bool_decide (s ∈ classes_ le) then index_of s (classes_ le) else 0
  | _ => 0
  end.

(** The literal tables of [_generate_recommendations]. *)
Definition soil_recs : list (pystr * pystr) :=
  [(str "Red soil", str "Add organic compost and phosphorus fertilizers");
   (str "Laterite soil",
    str "Apply lime to reduce acidity and add organic matter");
   (str "Black soil",
    str "Good for cotton and cereals, maintain proper drainage");
   (str "Alluvial soil", str "Rich in nutrients, suitable for multiple crops")].

Definition irrigation_recs : list (pystr * pystr) :=
  [(str "Rainfed",
    str "Consider water harvesting and drought-resistant varieties");
   (str "Drip", str "Maintain system efficiency and monitor soil moisture");
   (str "Canal", str "Schedule irrigation based on water availability");
   (str "Well", str "Monitor water table and use efficiently")].

(** [[table[v]] if v in table else []] for a table with [str] keys. *)
Definition rec_for (table : list (pystr * pystr)) (v : PyVal) : list pystr :=
  match v with
  | PStr s =>
      match List.find (fun kv => bool_decide (fst kv = s)) table with
      | Some kv => [snd kv]
      | None => []
      end
  | _ => []
  end.

(** [_generate_recommendations] (lines 148-185); the yield value is not
    used by the body. *)
Definition _generate_recommendations (input_data : gmap string PyVal)
  : outcome (list pystr) :=
  soil ← getitem input_data "soil_type";
  irr ← getitem input_data "irrigation_source";
  sea ← getitem input_data "season";
  Return (rec_for soil_recs soil ++ rec_for irrigation_recs irr
          ++ (if eq_str sea (str "Kharif")
              then [str "Monitor for monsoon pests and ensure proper drainage"]
              else if eq_str sea (str "Rabi")
              then [str "Protect from frost and ensure timely irrigation"]
              else [])
          ++ [str "Get soil tested every season for balanced fertilization";
              str "Practice crop rotation to maintain soil health";
              str "Use certified seeds for better yield"]).

Section Predictor.

(** The estimator and the numeric library are opaque collaborators:
    [Model] is a fitted [RandomForestRegressor], [model_predict m row] is
    [m.predict(input_df)[0]] on the one-row frame [row], [round2 x] is
    [round(x, 2)], [uniform lo hi] and [randint lo hi] are the draws of
    [np.random] in this call, [exc_str e] is [str(e)], and [insert_one]
    is the document store of the route. *)
Variable Model : Type.
Variable model_predict : Model → list (string * Cell) → outcome float.
Variable round2 : float → float.
Variable uniform : float → float → float.
Variable randint : Z → Z → Z.
Variable exc_str : PyExc → string.
Variable insert_one : YieldResult → outcome string.

(** The attributes of a [YieldPredictor] ([__init__], lines 13-16). *)
Record YieldPredictor : Type := mkYieldPredictor {
  model : option Model;
  label_encoders : gmap string LabelEncoder;
  is_trained_on_real_data : bool
}.

(** [YieldPredictor()]. *)
Definition init : YieldPredictor :=
  {| model := None; label_encoders := ∅; is_trained_on_real_data := false |}.

(** What [joblib.load] gives for the two pickle files at the time of the
    call: the object, or the exception of a missing or unreadable file. *)
Record Files : Type := mkFiles {
  yield_model_pkl : outcome Model;
  yield_encoders_pkl : outcome (gmap string LabelEncoder)
}.

(** Line 106: the features that are columns of the frame. *)
Definition available_features (input_data : gmap string PyVal) : list string :=
  filter (fun f => is_Some (input_data !! f)) features.

(** Lines 110-121 for one feature. *)
Definition encode_cell (self : YieldPredictor)
    (input_data : gmap string PyVal) (feature : string) : Cell :=
  let v := default PNone (input_data !! feature) in
  match label_encoders self !! feature with
  | Some le => Code (encode_value le v)
  | None => Raw v
  end.

(** The frame after the encoding loop. *)
Definition encode_row (self : YieldPredictor)
    (input_data : gmap string PyVal) : list (string * Cell) :=
  map (fun f => (f, encode_cell self input_data f))
      (available_features input_data).

(** [_calculate_confidence] (lines 141-146). *)
Definition _calculate_confidence (self : YieldPredictor) : float :=
  if is_trained_on_real_data self
  then round2 (uniform 0.88 0.96)%float
  else round2 (uniform 0.75 0.85)%float.

(** Lines 102-139 of [predict], with the model [m] in memory: the [try]
    around the prediction turns every exception into [None]. *)
Definition serve (self : YieldPredictor) (m : Model)
    (input_data : gmap string PyVal) : option YieldResult :=
  let input_df := encode_row self input_data in
  match (prediction ← model_predict m input_df;
         recs ← _generate_recommendations input_data;
         Return {| predicted_yield := round2 prediction;
                   confidence := _calculate_confidence self;
                   recommendations := recs;
                   prediction_id := randint 1000 9999;
                   data_source := if is_trained_on_real_data self
                                  then str "real" else str "sample" |}) with
  | Return r => Some r
  | Raise _ => None
  end.

(** [predict] (lines 89-139): the new attributes of [self] and the value
    returned ([None] for Python's [None]). *)
Definition predict (self : YieldPredictor) (files : Files)
    (input_data : gmap string PyVal) : YieldPredictor * option YieldResult :=
  match model self with
  | None =>
      match yield_model_pkl files with
      | Raise _ => (self, None)
      | Return m =>
          let self1 := {| model := Some m;
                          label_encoders := label_encoders self;
                          is_trained_on_real_data :=
                            is_trained_on_real_data self |} in
          match yield_encoders_pkl files with
          | Raise _ => (self1, None)
          | Return encoders =>
              let self2 := {| model := Some m;
                              label_encoders := encoders;
                              is_trained_on_real_data := true |} in
              (self2, serve self2 m input_data)
          end
      end
  | Some m => (self, serve self m input_data)
  end.

(** Lines 17-19 of the route: the first required field that is absent or
    falsy. *)
Definition first_missing (yield_data : gmap string PyVal) : option string :=
  List.find (fun field =>
               negb (match yield_data !! field with
                     | Some v => truthy v
                     | None => false
                     end))
            required_fields.

(** Line 23 of the route. *)
Definition model_input (yield_data : gmap string PyVal) : gmap string PyVal :=
  fold_left (fun acc feature =>
               match yield_data !! feature with
               | Some v => <[feature := v]> acc
               | None => acc
               end)
            model_features ∅.

(** [predict_yield_route] (lines 11-73), on the global predictor. *)
Definition predict_yield_route (self : YieldPredictor) (files : Files)
    (yield_data : gmap string PyVal) : YieldPredictor * Response :=
  match first_missing yield_data with
  | Some field =>
      (self, HTTPException 400 ("Missing required field: " ++ field)%string)
  | None =>
      let '(self', prediction_result) :=
        predict self files (model_input yield_data) in
      match prediction_result with
      | None => (self', HTTPException 500 "Prediction model not available")
      | Some r =>
          match insert_one r with
          | Return id => (self', Success r id)
          | Raise e =>
              (self', HTTPException 500 ("Prediction failed: " ++ exc_str e)%string)
          end
      end
  end.

End Predictor.

End Yield.

(* ===================================================================== *)
(** * crop_routes.py                                                      *)
(* ===================================================================== *)

Module CropRoute.

(** [CropRequestModel] (lines 13-19): the body of a request once pydantic
    has validated it, so the five fields are [str] and [user_id] is a
    [str] or [None]. *)
Record CropRequestModel : Type := mkCropRequestModel {
  state : pystr;
  district : pystr;
  soil_type : pystr;
  season : pystr;
  irrigation_source : pystr;
  user_id : option pystr
}.

(** One entry of ["recommendations"] (lines 59-66). *)
Record Item : Type := mkItem {
  crop : pystr;
  name : pystr;
  label : pystr;
  score : float
}.

(** The dict [response] (lines 76-83). *)
Record Content : Type := mkContent {
  status : pystr;
  recommended_crop : pystr;
  recommendations : list Item;
  top_predictions : list Item
}.

(** What the route gives: a [JSONResponse], or an [HTTPException]. *)
Inductive Response : Type :=
  | JSONResponse (status_code : Z) (content : Content)
  | HTTPException (status_code : Z) (detail : string).

(** Lines 29-35. *)
Definition model_input (payload : CropRequestModel) : gmap string PyVal :=
  {[ "state" := PStr (state payload);
     "district" := PStr (district payload);
     "soil_type" := PStr (soil_type payload);
     "season" := PStr (season payload);
     "irrigation_source" := PStr (irrigation_source payload) ]}.

(** Lines 55-66: the loop over [raw_preds]. *)
Definition normalize (raw_preds : list Crop.Prediction) : list Item :=
  map (fun item => {| crop := Crop.crop item;
                      name := Crop.crop item;
                      label := Crop.crop item;
                      score := Crop.score item |})
      raw_preds.

(** Lines 70-74: the list sent in place of an empty one. *)
Definition safety_items : list Item :=
  [ {| crop := str "Paddy"; name := str "Paddy"; label := str "Paddy";
       score := 0.4 |};
    {| crop := str "Maize"; name := str "Maize"; label := str "Maize";
       score := 0.35 |};
    {| crop := str "Chickpea"; name := str "Chickpea";
       label := str "Chickpea"; score := 0.25 |} ]%float.

(** [JSONResponse] renders its content with [json.dumps(...,
    allow_nan=False)], which raises [ValueError] on a NaN or an infinite
    float: the floats it accepts. *)
Definition json_float (f : float) : bool :=
  negb (PrimFloat.is_nan f) && negb (PrimFloat.is_infinity f).

(** [get_crop_recommendations] (lines 22-96): every exception of the
    body, the one of the rendering included, becomes the 500 of lines
    93-96. *)
Definition get_crop_recommendations (payload : CropRequestModel) : Response :=
  match Crop.crop_recommender (model_input payload) with
  | Raise _ => HTTPException 500 "Crop recommendation model not available"
  | Return result =>
      let raw_preds := Crop.top_predictions result in
      let recommendations := normalize raw_preds in
      let recommendations :=
        match recommendations with
        | [] => safety_items
        | _ :: _ => recommendations
        end in
      if forallb (fun item => json_float (score item)) recommendations
      then JSONResponse 200
             {| status := str "success";
                recommended_crop := Crop.recommended_crop result;
                recommendations := recommendations;
                top_predictions := recommendations |}
      else HTTPException 500 "Crop recommendation model not available"
  end.

End CropRoute.

(* ===================================================================== *)
(** * The specification's reading of the matcher                          *)
(* ===================================================================== *)

(** These definitions follow the words of the specification (section 4.1)
    and are compared below with the loop of [_match_rules]. *)
Module CropSpec.

Import Crop.

(** The three specificity tiers, in priority order. *)
Inductive Tier : Type := Exact | SoilOnly | Residual.

(** Step 1: region and period equal the (trimmed) query values. *)
Definition candidate (d s : pystr) (r : Rule) : Prop :=
  district r = d ∧ season r = s.

(** Step 2: the criterion of each bucket. *)
Definition criterion (t : Tier) (so ir : pystr) (r : Rule) : Prop :=
  match t with
  | Exact => so ∈ soil_types r ∧ ir ∈ irrigation r
  | SoilOnly => so ∈ soil_types r ∧ ir ∉ irrigation r
  | Residual => so ∉ soil_types r
  end.

#[export] Instance candidate_dec d s r : Decision (candidate d s r).
Proof. unfold candidate. apply _. Defined.

#[export] Instance criterion_dec t so ir r : Decision (criterion t so ir r).
Proof. destruct t; simpl; apply _. Defined.

(** The candidate set and its buckets; [filter] keeps catalog order. *)
Definition candidates (rules : list Rule) (d s : pystr) : list Rule :=
  filter (candidate d s) rules.

Definition bucket (t : Tier) (rules : list Rule) (d s so ir : pystr)
  : list Rule :=
  filter (criterion t so ir) (candidates rules d s).

(** Step 3: the first non-empty bucket in the order Exact, Soil-only,
    Residual. *)
Definition best_tier (rules : list Rule) (d s so ir : pystr) : option Tier :=
  match bucket Exact rules d s so ir with
  | _ :: _ => Some Exact
  | [] =>
      match bucket SoilOnly rules d s so ir with
      | _ :: _ => Some SoilOnly
      | [] =>
          match bucket Residual rules d s so ir with
          | _ :: _ => Some Residual
          | [] => None
          end
      end
  end.

Definition selected (rules : list Rule) (d s so ir : pystr) : list Rule :=
  match best_tier rules d s so ir with
  | Some t => bucket t rules d s so ir
  | None => []
  end.

(** Step 5: the first rule of the selected bucket. *)
(** Priority of a tier: lower is taken first. *)
Definition tier_rank (t : Tier) : nat :=
  match t with Exact => 0 | SoilOnly => 1 | Residual => 2 end.

Definition winner (rules : list Rule) (d s so ir : pystr) : option Rule :=
  head (selected rules d s so ir).

(** [w] is the first element of [l] that satisfies [P]. *)
Definition first_such {A : Type} (P : A → Prop) (l : list A) (w : A) : Prop :=
  ∃ pre post, l = pre ++ w :: post ∧ P w ∧ Forall (fun x => ¬ P x) pre.

(** The query [input_data] carries: the four fields are the strings
    [d], [so], [s], [ir] (an absent key reads as the empty string). *)
Definition string_fields (input_data : gmap string PyVal)
    (d so s ir : pystr) : Prop :=
  get input_data "district" = PStr d
  ∧ get input_data "soil_type" = PStr so
  ∧ get input_data "season" = PStr s
  ∧ get input_data "irrigation_source" = PStr ir.

(** A frame the estimator accepts: the six feature columns, each holding
    an integer code. *)
Definition numeric_row (row : list (string * Yield.Cell)) : Prop :=
  map fst row = Yield.features
  ∧ Forall (fun fc => ∃ n, snd fc = Yield.Code n) row.


(** No weight of the option list is a NaN. *)
Definition weights_ok (l : list (pystr * float)) : Prop :=
  Forall (fun cs => PrimFloat.is_nan (snd cs) = false) l.

(** No option is followed by one of greater weight ([<] on floats, the
    comparison the sort uses). *)
Definition no_rise (l : list (pystr * float)) : Prop :=
  StronglySorted (fun a b => PrimFloat.ltb (snd a) (snd b) = false) l.

(** Scores never go up along the list (Python's [<=] on floats). *)
Definition non_increasing (ws : list float) : Prop :=
  StronglySorted (fun a b => PrimFloat.leb b a = true) ws.

(** The options of weight [v] ([==] on floats), in list order. *)
Definition of_weight (v : float) (l : list (pystr * float))
  : list (pystr * float) :=
  List.filter (fun cs => PrimFloat.eqb (snd cs) v) l.


End CropSpec.

(** The dict the crop route hands to [recommend] (crop_routes.py, lines
    29-35) for a request of the state Karnataka. *)
Module Examples.

Definition crop_request (d so s ir : string) : gmap string PyVal :=
  {[ "state" := PStr (str "Karnataka");
     "district" := PStr (str d);
     "soil_type" := PStr (str so);
     "season" := PStr (str s);
     "irrigation_source" := PStr (str ir) ]}.

(** The first entry of [RULES] (crop_model.py, lines 39-50). *)
Definition siruguppa_kharif : Crop.Rule :=
  {| Crop.district := str "Siruguppa"; Crop.season := str "Kharif";
     Crop.soil_types :=
       [str "Red soil"; str "Black soil"; str "Alluvial soil"];
     Crop.irrigation := [str "Canal"; str "Borewell"];
     Crop.crops := [(str "Paddy", 0.55); (str "Maize", 0.25);
                    (str "Cotton", 0.12); (str "Red gram", 0.08)]%float |}.

(** A request for the yield route, and the state of a predictor whose
    six encoders were fitted on one training value each. *)
Definition yield_input (d : string) : gmap string PyVal :=
  {[ "state" := PStr (str "Karnataka");
     "district" := PStr (str d);
     "crop_name" := PStr (str "Paddy");
     "soil_type" := PStr (str "Red soil");
     "season" := PStr (str "Kharif");
     "irrigation_source" := PStr (str "Canal") ]}.

Definition fitted_encoders : gmap string Yield.LabelEncoder :=
  {[ "state" := Yield.mkLabelEncoder [str "Karnataka"];
     "district" := Yield.mkLabelEncoder [str "Gangavathi"; str "Siruguppa"];
     "crop_name" := Yield.mkLabelEncoder [str "Maize"; str "Paddy"];
     "soil_type" := Yield.mkLabelEncoder [str "Black soil"; str "Red soil"];
     "season" := Yield.mkLabelEncoder [str "Kharif"; str "Rabi"];
     "irrigation_source" := Yield.mkLabelEncoder [str "Borewell"; str "Canal"] ]}.

(** A stand-in estimator: 2.5 on a frame of codes, an exception on a
    frame with a raw value. *)
Definition toy_predict (m : unit) (row : list (string * Yield.Cell))
  : outcome float :=
  if forallb (fun fc => match snd fc with
                        | Yield.Code _ => true
                        | Yield.Raw _ => false
                        end) row
  then Return 2.5%float
  else Raise ValueError.

Definition toy_exc_str (e : PyExc) : string := "error".

Definition toy_insert_one (r : Yield.YieldResult) : outcome string :=
  Return "id".

End Examples.

(** Vocabulary for the further properties below. *)
Module ExtraSpec.

(** The keys [recommend] reads. *)
Definition query_keys : list string :=
  ["district"; "soil_type"; "season"; "irrigation_source"].

(** The keys [_generate_recommendations] reads. *)
Definition advice_keys : list string :=
  ["soil_type"; "irrigation_source"; "season"].

(** A field the yield route refuses: absent, or present with a falsy
    value. *)
Definition unusable (yield_data : gmap string PyVal) (field : string) : Prop :=
  ∀ v, yield_data !! field = Some v → truthy v = false.

(** The first element of greatest weight in an option list is [c]. *)
Definition first_of_weight (l : list (pystr * float)) (c : pystr * float)
  : Prop :=
  head (CropSpec.of_weight (snd c) l) = Some c.

(** A table with one rule that lists no crop. *)
Definition empty_rule_table : list Crop.Rule :=
  [ {| Crop.district := str "Hampi"; Crop.season := str "Kharif";
       Crop.soil_types := [str "Red soil"];
       Crop.irrigation := [str "Canal"];
       Crop.crops := [] |} ].

(** A request to the crop route. *)
Definition payload (st d so s ir : string) (uid : option pystr)
  : CropRoute.CropRequestModel :=
  {| CropRoute.state := str st;
     CropRoute.district := str d;
     CropRoute.soil_type := str so;
     CropRoute.season := str s;
     CropRoute.irrigation_source := str ir;
     CropRoute.user_id := uid |}.

(** A predictor with the stand-in model and the fitted encoders in
    memory, and the pickle files as three states of the disk. *)
Definition loaded_predictor : Yield.YieldPredictor unit :=
  {| Yield.model := Some tt;
     Yield.label_encoders := Examples.fitted_encoders;
     Yield.is_trained_on_real_data := true |}.

Definition no_files : Yield.Files unit :=
  {| Yield.yield_model_pkl := Raise IOError;
     Yield.yield_encoders_pkl := Raise IOError |}.

Definition model_file_only : Yield.Files unit :=
  {| Yield.yield_model_pkl := Return tt;
     Yield.yield_encoders_pkl := Raise IOError |}.

Definition both_files : Yield.Files unit :=
  {| Yield.yield_model_pkl := Return tt;
     Yield.yield_encoders_pkl := Return Examples.fitted_encoders |}.

End ExtraSpec.

(* ===================================================================== *)
(** * Comparison of binary64 numbers                                      *)
(* ===================================================================== *)

Module FloatOrder.

(** A key on which the lexicographic order of integers is the order of
    the floats that are not NaN (both zeros share a key). *)
Definition sf_rank (x : spec_float) : Z * Z * Z :=
  match x with
  | S754_zero _ | S754_nan => (0, 0, 0)%Z
  | S754_infinity false => (2, 0, 0)%Z
  | S754_infinity true => (-2, 0, 0)%Z
  | S754_finite false m e => (1, e, Zpos m)%Z
  | S754_finite true m e => (-1, - e, Zneg m)%Z
  end.

Definition lex3 (a b : Z * Z * Z) : comparison :=
  match a, b with
  | (a1, a2, a3), (b1, b2, b3) =>
      match (a1 ?= b1)%Z with
      | Eq => match (a2 ?= b2)%Z with Eq => (a3 ?= b3)%Z | c => c end
      | c => c
      end
  end.

Definition fkey (x : float) : Z * Z * Z := sf_rank (Prim2SF x).

Lemma SFcompare_rank x y :
  x ≠ S754_nan → y ≠ S754_nan →
  SFcompare x y = Some (lex3 (sf_rank x) (sf_rank y)).
Proof.
  intros Hx Hy.
  destruct x as [[]|[]| |[] m1 e1], y as [[]|[]| |[] m2 e2];
    try congruence; try reflexivity.
  cbn. rewrite Z.compare_opp, (Z.compare_antisym e1 e2).
  destruct (e1 ?= e2)%Z; reflexivity.
Qed.

Lemma is_nan_spec x : is_nan x = false → Prim2SF x ≠ S754_nan.
Proof.
  unfold is_nan. intros H E. rewrite FloatAxioms.eqb_spec, E in H.
  discriminate.
Qed.

Lemma lex3_lt a b :
  lex3 a b = Lt ↔
  (a.1.1 < b.1.1
   ∨ (a.1.1 = b.1.1 ∧ (a.1.2 < b.1.2 ∨ (a.1.2 = b.1.2 ∧ a.2 < b.2))))%Z.
Proof.
  destruct a as [[a1 a2] a3], b as [[b1 b2] b3]; cbn.
  destruct (Z.compare_spec a1 b1), (Z.compare_spec a2 b2),
    (Z.compare_spec a3 b3);
    split; intros; try discriminate; try reflexivity; lia.
Qed.

Lemma lex3_gt a b : lex3 a b = Gt ↔ lex3 b a = Lt.
Proof.
  destruct a as [[a1 a2] a3], b as [[b1 b2] b3]; cbn.
  rewrite (Z.compare_antisym a1 b1), (Z.compare_antisym a2 b2),
    (Z.compare_antisym a3 b3).
  destruct (a1 ?= b1)%Z, (a2 ?= b2)%Z, (a3 ?= b3)%Z; cbn;
    split; congruence.
Qed.

Lemma lex3_eq a b : lex3 a b = Eq ↔ a = b.
Proof.
  destruct a as [[a1 a2] a3], b as [[b1 b2] b3]; cbn.
  destruct (Z.compare_spec a1 b1), (Z.compare_spec a2 b2),
    (Z.compare_spec a3 b3);
    split; intros E; try discriminate; try (injection E; intros; lia);
    subst; reflexivity.
Qed.

(** [<], [<=] and [==] of Python floats, read on the keys. *)
Lemma ltb_lex x y :
  is_nan x = false → is_nan y = false →
  PrimFloat.ltb x y
  = match lex3 (fkey x) (fkey y) with Lt => true | _ => false end.
Proof.
  intros Hx%is_nan_spec Hy%is_nan_spec.
  rewrite FloatAxioms.ltb_spec. unfold SFltb, fkey.
  rewrite SFcompare_rank by assumption. reflexivity.
Qed.

Lemma leb_lex x y :
  is_nan x = false → is_nan y = false →
  PrimFloat.leb x y
  = match lex3 (fkey x) (fkey y) with Gt => false | _ => true end.
Proof.
  intros Hx%is_nan_spec Hy%is_nan_spec.
  rewrite FloatAxioms.leb_spec. unfold SFleb, fkey.
  rewrite SFcompare_rank by assumption.
  destruct (lex3 _ _); reflexivity.
Qed.

Lemma eqb_lex x y :
  is_nan x = false → is_nan y = false →
  PrimFloat.eqb x y
  = match lex3 (fkey x) (fkey y) with Eq => true | _ => false end.
Proof.
  intros Hx%is_nan_spec Hy%is_nan_spec.
  rewrite FloatAxioms.eqb_spec. unfold SFeqb, fkey.
  rewrite SFcompare_rank by assumption. reflexivity.
Qed.

(** A NaN is equal to nothing. *)
Lemma eqb_nan_r x v : is_nan v = true → PrimFloat.eqb x v = false.
Proof.
  unfold is_nan. intros Hv. rewrite FloatAxioms.eqb_spec in Hv |- *.
  unfold SFeqb in *.
  destruct (Prim2SF v) as [[]|[]| |[] m e] eqn:E;
    try (rewrite SFcompare_rank in Hv by discriminate;
         assert (R : lex3 (sf_rank (Prim2SF v)) (sf_rank (Prim2SF v)) = Eq)
           by (apply lex3_eq; reflexivity);
         rewrite E in R; rewrite R in Hv; discriminate).
  destruct (Prim2SF x) as [[]|[]| |[]]; reflexivity.
Qed.

(** The order facts the sort needs. *)
Lemma ltb_asym x y :
  is_nan x = false → is_nan y = false →
  PrimFloat.ltb x y = true → PrimFloat.ltb y x = false.
Proof.
  intros Hx Hy. rewrite !ltb_lex by assumption.
  destruct (lex3 (fkey x) (fkey y)) eqn:E1; try discriminate.
  destruct (lex3 (fkey y) (fkey x)) eqn:E2; try reflexivity.
  apply lex3_lt in E1, E2. lia.
Qed.

Lemma not_ltb_trans x y z :
  is_nan x = false → is_nan y = false → is_nan z = false →
  PrimFloat.ltb x y = false → PrimFloat.ltb y z = false →
  PrimFloat.ltb x z = false.
Proof.
  intros Hx Hy Hz. rewrite !ltb_lex by assumption.
  intros H1 H2.
  destruct (lex3 (fkey x) (fkey z)) eqn:E3; try reflexivity. exfalso.
  assert (N1 : lex3 (fkey x) (fkey y) ≠ Lt)
    by (intros E; rewrite E in H1; discriminate).
  assert (N2 : lex3 (fkey y) (fkey z) ≠ Lt)
    by (intros E; rewrite E in H2; discriminate).
  rewrite lex3_lt in N1, N2, E3.
  destruct (fkey x) as [[? ?] ?], (fkey y) as [[? ?] ?],
    (fkey z) as [[? ?] ?]; cbn in *; lia.
Qed.

Lemma leb_of_not_ltb x y :
  is_nan x = false → is_nan y = false →
  PrimFloat.ltb x y = false → PrimFloat.leb y x = true.
Proof.
  intros Hx Hy. rewrite ltb_lex, leb_lex by assumption.
  destruct (lex3 (fkey y) (fkey x)) eqn:E; try reflexivity.
  apply lex3_gt in E. rewrite E. discriminate.
Qed.

Lemma eqb_ltb_l x v y :
  is_nan x = false → is_nan v = false → is_nan y = false →
  PrimFloat.eqb x v = true → PrimFloat.ltb x y = PrimFloat.ltb v y.
Proof.
  intros Hx Hv Hy. rewrite eqb_lex, !ltb_lex by assumption.
  destruct (lex3 (fkey x) (fkey v)) eqn:E; try discriminate.
  apply lex3_eq in E. rewrite E. reflexivity.
Qed.

End FloatOrder.

(* ===================================================================== *)
(** * [str.strip]                                                         *)
(* ===================================================================== *)

Section Strip.

Import CropSpec.











End Strip.

(* ===================================================================== *)
(** * The sort of [recommend]                                             *)
(* ===================================================================== *)

Section Sorting.

Import Crop CropSpec FloatOrder.

Lemma insert_desc_perm x l : Permutation (insert_desc x l) (x :: l).
Proof.
  induction l as [|y l IH]; simpl; [reflexivity|].
  destruct (PrimFloat.ltb (snd x) (snd y)); [|reflexivity].
  rewrite IH. apply perm_swap.
Qed.

Lemma sorted_desc_perm l : Permutation (sorted_desc l) l.
Proof.
  induction l as [|x l IH]; simpl; [reflexivity|].
  rewrite insert_desc_perm. apply perm_skip, IH.
Qed.

Lemma sorted_desc_length l : length (sorted_desc l) = length l.
Proof. apply Permutation_length, sorted_desc_perm. Qed.

Lemma sorted_desc_nonempty l : l ≠ [] → sorted_desc l ≠ [].
Proof.
  intros Hl E. apply (f_equal (@length _)) in E.
  rewrite sorted_desc_length in E. destruct l; [congruence|discriminate].
Qed.

Lemma weights_ok_perm l l' : Permutation l l' → weights_ok l → weights_ok l'.
Proof. unfold weights_ok. intros HP H. rewrite <- HP. exact H. Qed.

Lemma insert_desc_no_rise x l :
  PrimFloat.is_nan (snd x) = false → weights_ok l →
  no_rise l → no_rise (insert_desc x l).
Proof.
  intros Hx Hl Hs. induction Hs as [|y l Hs IH Hy]; simpl.
  - repeat constructor.
  - apply List.Forall_cons_iff in Hl as [Hy0 Hl].
    destruct (PrimFloat.ltb (snd x) (snd y)) eqn:E.
    + constructor; [apply IH, Hl|].
      rewrite (insert_desc_perm x l). constructor; [|exact Hy].
      apply ltb_asym; assumption.
    + constructor; [constructor; assumption|].
      constructor; [exact E|].
      rewrite List.Forall_forall in Hy, Hl |- *. intros z Hz.
      apply (not_ltb_trans _ (snd y)); auto.
Qed.

Lemma sorted_desc_no_rise l : weights_ok l → no_rise (sorted_desc l).
Proof.
  induction l as [|x l IH]; simpl; intros Hl; [constructor|].
  apply List.Forall_cons_iff in Hl as [Hx Hl].
  apply insert_desc_no_rise; [exact Hx| |apply IH, Hl].
  apply (weights_ok_perm l); [symmetry; apply sorted_desc_perm | exact Hl].
Qed.

(** The same, on the scores and with Python's [<=]. *)
Lemma no_rise_non_increasing l :
  weights_ok l → no_rise l → non_increasing (map snd l).
Proof.
  intros Hl Hs. induction Hs as [|y l Hs IH Hy]; simpl; [constructor|].
  apply List.Forall_cons_iff in Hl as [Hy0 Hl].
  constructor; [apply IH, Hl|].
  rewrite List.Forall_forall in Hy, Hl |- *.
  intros w Hw. apply in_map_iff in Hw as [z [<- Hz]].
  apply leb_of_not_ltb; auto.
Qed.

Lemma StronglySorted_firstn {A} (R : A → A → Prop) n l :
  StronglySorted R l → StronglySorted R (firstn n l).
Proof.
  intros Hs. revert n. induction Hs as [|x l Hs IH Hx]; intros [|n]; simpl;
    try constructor; [apply IH|].
  rewrite List.Forall_forall in Hx |- *. intros y Hy.
  apply Hx. rewrite <- (firstn_skipn n l). apply in_or_app. left. exact Hy.
Qed.

(** Stability: inserting [x] puts it in front of the options of its own
    weight and moves no other option. *)
Lemma of_weight_insert_desc v x l :
  PrimFloat.is_nan (snd x) = false → weights_ok l →
  of_weight v (insert_desc x l) = of_weight v (x :: l).
Proof.
  intros Hx Hl. destruct (PrimFloat.is_nan v) eqn:Hv.
  { assert (E : ∀ k, of_weight v k = []).
    { induction k as [|z k IHk]; simpl; [reflexivity|].
      rewrite eqb_nan_r by exact Hv. exact IHk. }
    rewrite !E. reflexivity. }
  induction l as [|y l IH]; simpl; [reflexivity|].
  apply List.Forall_cons_iff in Hl as [Hy Hl].
  destruct (PrimFloat.ltb (snd x) (snd y)) eqn:E; [|reflexivity].
  simpl. rewrite (IH Hl). simpl.
  destruct (PrimFloat.eqb (snd x) v) eqn:Ex,
    (PrimFloat.eqb (snd y) v) eqn:Ey; try reflexivity.
  exfalso.
  rewrite (eqb_ltb_l (snd x) v (snd y)) in E by assumption.
  rewrite eqb_lex in Ey by assumption.
  rewrite ltb_lex in E by assumption.
  destruct (lex3 (fkey (snd y)) (fkey v)) eqn:Ey'; try discriminate.
  apply lex3_eq in Ey'. rewrite Ey' in E.
  assert (R : lex3 (fkey v) (fkey v) = Eq) by (apply lex3_eq; reflexivity).
  rewrite R in E. discriminate.
Qed.

Lemma sorted_desc_stable v l :
  weights_ok l → of_weight v (sorted_desc l) = of_weight v l.
Proof.
  induction l as [|x l IH]; simpl; intros Hl; [reflexivity|].
  apply List.Forall_cons_iff in Hl as [Hx Hl].
  rewrite of_weight_insert_desc;
    [| exact Hx
     | apply (weights_ok_perm l);
       [symmetry; apply sorted_desc_perm | exact Hl]].
  simpl. rewrite (IH Hl). reflexivity.
Qed.

End Sorting.

(* ===================================================================== *)
(** * The loop of [_match_rules] and the buckets of the specification     *)
(* ===================================================================== *)

Section Matcher.

Import Crop CropSpec.

Lemma bucket_cons t r rs d s so ir :
  bucket t (r :: rs) d s so ir
  = if decide (candidate d s r ∧ criterion t so ir r)
    then r :: bucket t rs d s so ir
    else bucket t rs d s so ir.
Proof.
  unfold bucket, candidates. rewrite filter_cons.
  destruct (decide (candidate d s r)) as [Hc|Hc].
  - rewrite filter_cons.
    destruct (decide (criterion t so ir r)) as [Ht|Ht].
    + rewrite decide_True by tauto. reflexivity.
    + rewrite decide_False by tauto. reflexivity.
  - rewrite decide_False by tauto. reflexivity.
Qed.

(** The loop appends to each list the bucket of the rules it has seen. *)
Lemma fold_classify d s so ir rules acc :
  fold_left (classify d s so ir) rules acc
  = {| exact_matches := exact_matches acc ++ bucket Exact rules d s so ir;
       soil_matches := soil_matches acc ++ bucket SoilOnly rules d s so ir;
       season_matches :=
         season_matches acc ++ bucket Residual rules d s so ir |}.
Proof.
  revert acc. induction rules as [|r rs IH]; intros acc; simpl.
  - unfold bucket, candidates. simpl. rewrite !app_nil_r.
    destruct acc; reflexivity.
  - rewrite IH, !bucket_cons. unfold classify, candidate. simpl.
    destruct (decide (district r = d)) as [Hd|Hd];
      [rewrite (bool_decide_eq_true_2 _ Hd)
      |rewrite (bool_decide_eq_false_2 _ Hd)]; simpl;
      [|rewrite !decide_False by tauto; reflexivity].
    destruct (decide (season r = s)) as [Hs|Hs];
      [rewrite (bool_decide_eq_true_2 _ Hs)
      |rewrite (bool_decide_eq_false_2 _ Hs)]; simpl;
      [|rewrite !decide_False by tauto; reflexivity].
    destruct (decide (so ∈ soil_types r)) as [Hso|Hso];
      [rewrite (bool_decide_eq_true_2 _ Hso)
      |rewrite (bool_decide_eq_false_2 _ Hso)]; simpl.
    + destruct (decide (ir ∈ irrigation r)) as [Hir|Hir];
        [rewrite (bool_decide_eq_true_2 _ Hir)
        |rewrite (bool_decide_eq_false_2 _ Hir)]; simpl.
      * rewrite (decide_True (P := _ ∧ (so ∈ _ ∧ ir ∈ _))) by tauto.
        rewrite (decide_False (P := _ ∧ (so ∈ _ ∧ ir ∉ _))) by tauto.
        rewrite (decide_False (P := _ ∧ (so ∉ _))) by tauto.
        rewrite <- app_assoc. reflexivity.
      * rewrite (decide_False (P := _ ∧ (so ∈ _ ∧ ir ∈ _))) by tauto.
        rewrite (decide_True (P := _ ∧ (so ∈ _ ∧ ir ∉ _))) by tauto.
        rewrite (decide_False (P := _ ∧ (so ∉ _))) by tauto.
        rewrite <- app_assoc. reflexivity.
    + rewrite (decide_False (P := _ ∧ (so ∈ _ ∧ ir ∈ _))) by tauto.
      rewrite (decide_False (P := _ ∧ (so ∈ _ ∧ ir ∉ _))) by tauto.
      rewrite (decide_True (P := _ ∧ (so ∉ _))) by tauto.
      rewrite <- app_assoc. reflexivity.
Qed.


(** [_match_rules] returns the bucket the specification selects. *)
Lemma match_rules_selected rules d s so ir :
  _match_rules rules (PStr d) (PStr s) (PStr so) (PStr ir)
  = Return (selected rules (strip d) (strip s) (strip so) (strip ir)).
Proof.
  unfold _match_rules. simpl. rewrite fold_classify. simpl.
  unfold selected, best_tier.
  destruct (bucket Exact _ _ _ _ _) eqn:E1; [|rewrite E1; reflexivity].
  destruct (bucket SoilOnly _ _ _ _ _) eqn:E2; [|rewrite E2; reflexivity].
  destruct (bucket Residual _ _ _ _ _) eqn:E3; [|rewrite E3]; reflexivity.
Qed.

(** [recommend] answers from the winner alone, or with the fallback. *)
Lemma recommend_winner rules input_data d so s ir :
  string_fields input_data d so s ir →
  recommend rules input_data
  = match winner rules (strip d) (strip s) (strip so) (strip ir) with
    | Some w => recommend_rule w
    | None => fallback
    end.
Proof.
  intros (Hd & Hso & Hs & Hir). unfold recommend.
  rewrite Hd, Hso, Hs, Hir, match_rules_selected. simpl.
  unfold winner. destruct (selected _ _ _ _ _); reflexivity.
Qed.

(** Each candidate meets the criterion of exactly one tier. *)
Lemma criterion_total so ir r : ∃ t, criterion t so ir r.
Proof.
  destruct (decide (so ∈ soil_types r)) as [Hso|Hso];
    [destruct (decide (ir ∈ irrigation r)) as [Hir|Hir]|].
  - exists Exact. split; assumption.
  - exists SoilOnly. split; assumption.
  - exists Residual. exact Hso.
Qed.

Lemma criterion_exclusive t1 t2 so ir r :
  criterion t1 so ir r → criterion t2 so ir r → t1 = t2.
Proof. destruct t1, t2; simpl; intros H1 H2; try reflexivity; tauto. Qed.

Lemma buckets_partition rules d s so ir :
  Permutation (candidates rules d s)
    (bucket Exact rules d s so ir ++ bucket SoilOnly rules d s so ir
     ++ bucket Residual rules d s so ir).
Proof.
  unfold bucket. induction (candidates rules d s) as [|r l IH];
    [reflexivity|].
  rewrite !filter_cons.
  destruct (criterion_total so ir r) as [[] Ht].
  - rewrite decide_True by exact Ht.
    rewrite (decide_False (P := criterion SoilOnly so ir r))
      by (intros H; discriminate (criterion_exclusive _ _ _ _ _ Ht H)).
    rewrite (decide_False (P := criterion Residual so ir r))
      by (intros H; discriminate (criterion_exclusive _ _ _ _ _ Ht H)).
    simpl. apply perm_skip, IH.
  - rewrite (decide_False (P := criterion Exact so ir r))
      by (intros H; discriminate (criterion_exclusive _ _ _ _ _ Ht H)).
    rewrite (decide_True (P := criterion SoilOnly so ir r)) by exact Ht.
    rewrite (decide_False (P := criterion Residual so ir r))
      by (intros H; discriminate (criterion_exclusive _ _ _ _ _ Ht H)).
    etransitivity; [apply perm_skip, IH | apply Permutation_middle].
  - rewrite (decide_False (P := criterion Exact so ir r))
      by (intros H; discriminate (criterion_exclusive _ _ _ _ _ Ht H)).
    rewrite (decide_False (P := criterion SoilOnly so ir r))
      by (intros H; discriminate (criterion_exclusive _ _ _ _ _ Ht H)).
    rewrite (decide_True (P := criterion Residual so ir r)) by exact Ht.
    etransitivity; [apply perm_skip, IH|].
    rewrite !app_assoc. apply Permutation_middle.
Qed.

(** The head of a filtered list is the first element that passes. *)
Lemma head_filter_first {A} (P : A → Prop) `{!∀ x, Decision (P x)} l w :
  head (filter P l) = Some w → first_such P l w.
Proof.
  induction l as [|x l IH]; [discriminate|].
  rewrite filter_cons. destruct (decide (P x)) as [Hx|Hx]; simpl.
  - intros [= ->]. exists [], l. split; [reflexivity|].
    split; [exact Hx | constructor].
  - intros Hh. destruct (IH Hh) as (pre & post & -> & Hw & Hpre).
    exists (x :: pre), post. split; [reflexivity|].
    split; [exact Hw | constructor; assumption].
Qed.

Lemma bucket_filter t rules d s so ir :
  bucket t rules d s so ir
  = filter (fun r => criterion t so ir r ∧ candidate d s r) rules.
Proof. unfold bucket, candidates. apply list_filter_filter. Qed.

(** The selected tier is non-empty and every tier before it is empty. *)
Lemma best_tier_spec rules d s so ir t :
  best_tier rules d s so ir = Some t →
  bucket t rules d s so ir ≠ []
  ∧ ∀ t', (tier_rank t' < tier_rank t)%nat → bucket t' rules d s so ir = [].
Proof.
  unfold best_tier.
  destruct (bucket Exact rules d s so ir) eqn:E1.
  - destruct (bucket SoilOnly rules d s so ir) eqn:E2.
    + destruct (bucket Residual rules d s so ir) eqn:E3; [discriminate|].
      intros [= <-]. split; [congruence|].
      intros [] Hlt; simpl in Hlt; try lia; assumption.
    + intros [= <-]. split; [congruence|].
      intros [] Hlt; simpl in Hlt; try lia; assumption.
  - intros [= <-]. split; [congruence|].
    intros [] Hlt; simpl in Hlt; lia.
Qed.

Lemma best_tier_none rules d s so ir :
  best_tier rules d s so ir = None ↔ candidates rules d s = [].
Proof.
  split.
  - unfold best_tier. intros H.
    pose proof (buckets_partition rules d s so ir) as HP.
    destruct (bucket Exact rules d s so ir); [|discriminate].
    destruct (bucket SoilOnly rules d s so ir); [|discriminate].
    destruct (bucket Residual rules d s so ir); [|discriminate].
    apply Permutation_nil. symmetry. exact HP.
  - intros H. unfold best_tier, bucket. rewrite H. reflexivity.
Qed.

Lemma selected_nil rules d s so ir :
  selected rules d s so ir = [] ↔ candidates rules d s = [].
Proof.
  rewrite <- (best_tier_none rules d s so ir). unfold selected.
  destruct (best_tier rules d s so ir) as [t|] eqn:E.
  - destruct (best_tier_spec _ _ _ _ _ _ E) as [Hne _].
    split; [contradiction | discriminate].
  - split; reflexivity.
Qed.

Lemma winner_first rules d s so ir w :
  winner rules d s so ir = Some w →
  ∃ t, best_tier rules d s so ir = Some t
       ∧ first_such (fun r => criterion t so ir r ∧ candidate d s r) rules w.
Proof.
  unfold winner, selected.
  destruct (best_tier rules d s so ir) as [t|]; [|discriminate].
  rewrite bucket_filter. intros H. exists t. split; [reflexivity|].
  exact (head_filter_first _ rules w H).
Qed.

Lemma exact_wins rules d s so ir r :
  r ∈ rules → candidate d s r → criterion Exact so ir r →
  best_tier rules d s so ir = Some Exact.
Proof.
  intros Hr Hc Ht. unfold best_tier.
  assert (Hin : r ∈ bucket Exact rules d s so ir).
  { rewrite bucket_filter. apply list_elem_of_filter. tauto. }
  destruct (bucket Exact rules d s so ir); [|reflexivity].
  inversion Hin.
Qed.

Lemma winner_some rules d s so ir :
  candidates rules d s ≠ [] → ∃ w, winner rules d s so ir = Some w.
Proof.
  intros H. unfold winner.
  destruct (selected rules d s so ir) as [|w l] eqn:E.
  - apply selected_nil in E. contradiction.
  - exists w. reflexivity.
Qed.

End Matcher.

(* ===================================================================== *)
(** * Facts about the table [RULES]                                       *)
(* ===================================================================== *)

Section Table.

Import Crop CropSpec.

Lemma RULES_crops_nonempty : Forall (fun r => crops r ≠ []) RULES.
Proof. unfold RULES. repeat constructor; discriminate. Qed.

Lemma RULES_weights_ok : Forall (fun r => weights_ok (crops r)) RULES.
Proof. unfold RULES, weights_ok. repeat constructor. Qed.

(** No rule of the table answers with the labels of the fallback. *)
Lemma RULES_never_fallback :
  Forall (fun r => recommend_rule r ≠ fallback) RULES.
Proof.
  unfold RULES. repeat constructor; intros H;
    apply (f_equal (fun o => match o with
                             | Return a => map crop (top_predictions a)
                             | Raise _ => []
                             end)) in H;
    vm_compute in H; discriminate.
Qed.

Lemma winner_in_rules rules d s so ir w :
  winner rules d s so ir = Some w → w ∈ rules.
Proof.
  intros H. apply winner_first in H as (t & _ & pre & post & -> & _).
  apply elem_of_app. right. left.
Qed.

(** What [recommend_rule] answers for a rule with options. *)
Lemma recommend_rule_return w :
  crops w ≠ [] →
  ∃ c0 rest,
    sorted_desc (crops w) = c0 :: rest
    ∧ recommend_rule w
      = Return {| recommended_crop := fst c0;
                  top_predictions :=
                    predictions_of (firstn 3 (sorted_desc (crops w))) |}.
Proof.
  intros Hne. unfold recommend_rule.
  destruct (sorted_desc (crops w)) as [|c0 rest] eqn:E.
  - destruct (sorted_desc_nonempty _ Hne E).
  - exists c0, rest. split; reflexivity.
Qed.

Lemma predictions_of_length l : length (predictions_of l) = length l.
Proof. unfold predictions_of. apply length_map. Qed.

Lemma predictions_of_scores l : map score (predictions_of l) = map snd l.
Proof.
  unfold predictions_of. rewrite map_map. apply map_ext. reflexivity.
Qed.

(** A call that returns was made with four strings. *)
Lemma match_rules_return rules a b c e l :
  _match_rules rules a b c e = Return l →
  ∃ d s so ir, a = PStr d ∧ b = PStr s ∧ c = PStr so ∧ e = PStr ir.
Proof.
  unfold _match_rules.
  destruct a as [d| | | |]; try discriminate.
  destruct b as [s| | | |]; try discriminate.
  destruct c as [so| | | |]; try discriminate.
  destruct e as [ir| | | |]; try discriminate.
  intros _. exists d, s, so, ir. repeat split.
Qed.

Lemma recommend_return rules input_data r :
  recommend rules input_data = Return r →
  ∃ d so s ir, string_fields input_data d so s ir.
Proof.
  unfold recommend. intros H.
  destruct (_match_rules rules (get input_data "district")
              (get input_data "season") (get input_data "soil_type")
              (get input_data "irrigation_source")) as [l|] eqn:E;
    [|discriminate].
  apply match_rules_return in E as (d & s & so & ir & Hd & Hs & Hso & Hir).
  exists d, so, s, ir. repeat split; assumption.
Qed.

End Table.

Section Residual.

Import Crop CropSpec.

Lemma filter_none {A} (P : A → Prop) `{!∀ x, Decision (P x)} (l : list A) :
  (∀ x, x ∈ l → ¬ P x) → filter P l = [].
Proof.
  induction l as [|x l IH]; intros Hl; [reflexivity|].
  rewrite filter_cons_False by (apply Hl; left).
  apply IH. intros y Hy. apply Hl. right. exact Hy.
Qed.

Lemma filter_all {A} (P : A → Prop) `{!∀ x, Decision (P x)} (l : list A) :
  (∀ x, x ∈ l → P x) → filter P l = l.
Proof.
  induction l as [|x l IH]; intros Hl; [reflexivity|].
  rewrite filter_cons_True by (apply Hl; left).
  f_equal. apply IH. intros y Hy. apply Hl. right. exact Hy.
Qed.

(** With no candidate accepting the soil, the residual bucket is the
    candidate set and it is the one selected. *)
Lemma residual_only rules d s so ir w rest :
  candidates rules d s = w :: rest →
  (∀ r, r ∈ candidates rules d s → so ∉ soil_types r) →
  best_tier rules d s so ir = Some Residual
  ∧ selected rules d s so ir = w :: rest.
Proof.
  intros Hc Hsoil.
  assert (HE : bucket Exact rules d s so ir = []).
  { unfold bucket. apply filter_none. intros r Hr [Hso _].
    exact (Hsoil r Hr Hso). }
  assert (HS : bucket SoilOnly rules d s so ir = []).
  { unfold bucket. apply filter_none. intros r Hr [Hso _].
    exact (Hsoil r Hr Hso). }
  assert (HR : bucket Residual rules d s so ir = w :: rest).
  { unfold bucket. rewrite filter_all by exact Hsoil. exact Hc. }
  unfold selected, best_tier. rewrite HE, HS, HR. split; [reflexivity|].
  exact HR.
Qed.

End Residual.


Section LoopLists.

Import Crop CropSpec.



End LoopLists.

(* ===================================================================== *)
(** * Properties of the crop recommender                                  *)
(* ===================================================================== *)

Section CropClaims.

Import Crop CropSpec Examples.

(** C1.  A query whose trimmed district and season are those of no rule
    gets the fixed fallback: the labels Paddy, Maize, Chickpea with the
    scores 0.40, 0.35, 0.25 in that order, Paddy as the recommended crop.
    The right-hand side mentions neither the table nor the query, so the
    answer is the same for every table and every such call. *)
Theorem C1_fallback_when_no_rule
    (rules : list Rule) (input_data : gmap string PyVal) (d so s ir : pystr) :
  string_fields input_data d so s ir →
  candidates rules (strip d) (strip s) = [] →
  recommend rules input_data
  = Return {| recommended_crop := str "Paddy";
              top_predictions :=
                [ {| crop := str "Paddy"; score := 0.40 |};
                  {| crop := str "Maize"; score := 0.35 |};
                  {| crop := str "Chickpea"; score := 0.25 |} ] |}.
Proof.
  intros Hq Hnone. rewrite (recommend_winner _ _ _ _ _ _ Hq).
  unfold winner.
  apply (selected_nil rules _ _ (strip so) (strip ir)) in Hnone.
  rewrite Hnone. reflexivity.
Qed.

Lemma C1_witness :
  recommend RULES (crop_request "Unknown Place" "Red soil" "Kharif" "Canal")
  = Return {| recommended_crop := str "Paddy";
              top_predictions :=
                [ {| crop := str "Paddy"; score := 0.40 |};
                  {| crop := str "Maize"; score := 0.35 |};
                  {| crop := str "Chickpea"; score := 0.25 |} ] |}.
Proof.
  apply (C1_fallback_when_no_rule RULES _ (str "Unknown Place")
           (str "Red soil") (str "Kharif") (str "Canal")).
  - vm_compute. repeat split.
  - vm_compute. reflexivity.
Defined.

(** C2.  The candidates (district and season equal to the trimmed query
    values) split into the exact, soil-only and residual buckets, each
    candidate in exactly one; [_match_rules] returns the first non-empty
    bucket in that order; the rule taken is the first rule of the table,
    in table order, that belongs to this bucket; when some rule matches
    exactly the rule taken matches exactly; and the answer is computed
    from the rule taken alone. *)
Theorem C2_winner_first_of_best_bucket
    (rules : list Rule) (input_data : gmap string PyVal) (d so s ir : pystr) :
  string_fields input_data d so s ir →
  Permutation (candidates rules (strip d) (strip s))
    (bucket Exact rules (strip d) (strip s) (strip so) (strip ir)
     ++ bucket SoilOnly rules (strip d) (strip s) (strip so) (strip ir)
     ++ bucket Residual rules (strip d) (strip s) (strip so) (strip ir))
  ∧ (∀ r t1 t2,
       criterion t1 (strip so) (strip ir) r →
       criterion t2 (strip so) (strip ir) r → t1 = t2)
  ∧ _match_rules rules (PStr d) (PStr s) (PStr so) (PStr ir)
    = Return (selected rules (strip d) (strip s) (strip so) (strip ir))
  ∧ (∀ t,
       best_tier rules (strip d) (strip s) (strip so) (strip ir) = Some t →
       bucket t rules (strip d) (strip s) (strip so) (strip ir) ≠ []
       ∧ ∀ t', (tier_rank t' < tier_rank t)%nat →
               bucket t' rules (strip d) (strip s) (strip so) (strip ir) = [])
  ∧ (∀ w,
       winner rules (strip d) (strip s) (strip so) (strip ir) = Some w →
       ∃ t,
         best_tier rules (strip d) (strip s) (strip so) (strip ir) = Some t
         ∧ first_such
             (fun r => criterion t (strip so) (strip ir) r
                       ∧ candidate (strip d) (strip s) r)
             rules w)
  ∧ (∀ r,
       r ∈ rules → candidate (strip d) (strip s) r →
       criterion Exact (strip so) (strip ir) r →
       ∃ w,
         winner rules (strip d) (strip s) (strip so) (strip ir) = Some w
         ∧ criterion Exact (strip so) (strip ir) w
         ∧ candidate (strip d) (strip s) w)
  ∧ recommend rules input_data
    = match winner rules (strip d) (strip s) (strip so) (strip ir) with
      | Some w => recommend_rule w
      | None => fallback
      end.
Proof.
  intros Hq.
  split; [apply buckets_partition|].
  split; [intros r t1 t2; apply criterion_exclusive|].
  split; [apply match_rules_selected|].
  split; [intros t; apply best_tier_spec|].
  split; [intros w; apply winner_first|].
  split; [|apply recommend_winner, Hq].
  intros r Hr Hc Ht.
  pose proof (exact_wins _ _ _ _ _ _ Hr Hc Ht) as Hbest.
  destruct (winner_some rules (strip d) (strip s) (strip so) (strip ir))
    as [w Hw].
  { intros E. apply (best_tier_none rules _ _ (strip so) (strip ir)) in E.
    congruence. }
  exists w. split; [exact Hw|].
  apply winner_first in Hw as (t & Ht' & pre & post & _ & Hw & _).
  rewrite Hbest in Ht'. injection Ht' as <-. exact Hw.
Qed.

Lemma C2_witness :
  recommend RULES (crop_request "Siruguppa" "Red soil" "Kharif" "Canal")
  = match winner RULES (strip (str "Siruguppa")) (strip (str "Kharif"))
            (strip (str "Red soil")) (strip (str "Canal")) with
    | Some w => recommend_rule w
    | None => fallback
    end.
Proof.
  apply (C2_winner_first_of_best_bucket RULES
           (crop_request "Siruguppa" "Red soil" "Kharif" "Canal")
           (str "Siruguppa") (str "Red soil") (str "Kharif") (str "Canal")).
  vm_compute. repeat split.
Defined.

(** C3.  When the district and season are those of some rule but the soil
    type is accepted by none of these rules, every candidate is in the
    residual bucket, [_match_rules] returns the candidates and the answer
    is the one of the first candidate.  [_match_rules] returns the empty
    list, which is what sends [recommend] to the fallback, exactly when
    there is no candidate; and on the table [RULES] an answer equal to
    the fallback is given only then. *)
Theorem C3_residual_not_fallback
    (rules : list Rule) (input_data : gmap string PyVal) (d so s ir : pystr) :
  string_fields input_data d so s ir →
  (candidates rules (strip d) (strip s) ≠ [] →
   (∀ r, r ∈ candidates rules (strip d) (strip s) →
         strip so ∉ soil_types r) →
   ∃ w rest,
     candidates rules (strip d) (strip s) = w :: rest
     ∧ best_tier rules (strip d) (strip s) (strip so) (strip ir)
       = Some Residual
     ∧ _match_rules rules (PStr d) (PStr s) (PStr so) (PStr ir)
       = Return (w :: rest)
     ∧ recommend rules input_data = recommend_rule w)
  ∧ (_match_rules rules (PStr d) (PStr s) (PStr so) (PStr ir) = Return []
     ↔ candidates rules (strip d) (strip s) = [])
  ∧ (crop_recommender input_data = fallback →
     candidates RULES (strip d) (strip s) = []).
Proof.
  intros Hq. split; [|split].
  - intros Hne Hsoil.
    destruct (candidates rules (strip d) (strip s)) as [|w rest] eqn:Hc;
      [congruence|].
    destruct (residual_only rules _ _ (strip so) (strip ir) w rest Hc)
      as [Hbest Hsel].
    { intros r Hr. rewrite Hc in Hr. exact (Hsoil r Hr). }
    exists w, rest. split; [reflexivity|]. split; [exact Hbest|].
    split; [rewrite match_rules_selected, Hsel; reflexivity|].
    rewrite (recommend_winner _ _ _ _ _ _ Hq). unfold winner.
    rewrite Hsel. reflexivity.
  - rewrite match_rules_selected.
    rewrite <- (selected_nil rules _ _ (strip so) (strip ir)).
    split; [intros [= E]; exact E | intros ->; reflexivity].
  - unfold crop_recommender. rewrite (recommend_winner _ _ _ _ _ _ Hq).
    destruct (winner RULES (strip d) (strip s) (strip so) (strip ir))
      as [w|] eqn:Hw.
    + intros Hf. exfalso.
      pose proof (winner_in_rules _ _ _ _ _ _ Hw) as Hin.
      pose proof RULES_never_fallback as HN.
      rewrite List.Forall_forall in HN.
      apply (HN w); [apply list_elem_of_In, Hin | exact Hf].
    + intros _. apply (selected_nil RULES _ _ (strip so) (strip ir)).
      unfold winner in Hw.
      destruct (selected RULES (strip d) (strip s) (strip so) (strip ir));
        [reflexivity | discriminate].
Qed.

(** A query for a district and season of the table with a soil type no
    rule knows: the answer is the one of the Siruguppa Kharif rule. *)
Lemma C3_witness :
  ∃ w rest,
    candidates RULES (strip (str "Siruguppa")) (strip (str "Kharif"))
    = w :: rest
    ∧ best_tier RULES (strip (str "Siruguppa")) (strip (str "Kharif"))
        (strip (str "Sandy soil")) (strip (str "Canal"))
      = Some Residual
    ∧ _match_rules RULES (PStr (str "Siruguppa")) (PStr (str "Kharif"))
        (PStr (str "Sandy soil")) (PStr (str "Canal"))
      = Return (w :: rest)
    ∧ recommend RULES
        (crop_request "Siruguppa" "Sandy soil" "Kharif" "Canal")
      = recommend_rule w.
Proof.
  apply (C3_residual_not_fallback RULES
           (crop_request "Siruguppa" "Sandy soil" "Kharif" "Canal")
           (str "Siruguppa") (str "Sandy soil") (str "Kharif") (str "Canal")).
  - vm_compute. repeat split.
  - vm_compute. discriminate.
  - intros r Hr. vm_compute in Hr.
    apply list_elem_of_singleton in Hr. subst r. vm_compute.
    intros H. repeat (apply elem_of_cons in H as [H|H]; [discriminate|]).
    inversion H.
Defined.

(** C4.  For the rule taken, the predictions are its options sorted by
    weight, greatest first, cut after the third.  The sorted list is a
    rearrangement of the options, no score is followed by a greater one,
    and the options of any one weight stand in it in their original
    order (the sort is stable).  The number of predictions is the smaller
    of 3 and the number of options: 3 for a rule with 4 options, all of
    them for a rule with fewer than 3. *)
Theorem C4_top3_stable_sort
    (rules : list Rule) (input_data : gmap string PyVal) (d so s ir : pystr)
    (w : Rule) :
  string_fields input_data d so s ir →
  winner rules (strip d) (strip s) (strip so) (strip ir) = Some w →
  crops w ≠ [] →
  weights_ok (crops w) →
  ∃ r,
    recommend rules input_data = Return r
    ∧ top_predictions r = predictions_of (firstn 3 (sorted_desc (crops w)))
    ∧ Permutation (sorted_desc (crops w)) (crops w)
    ∧ non_increasing (map snd (sorted_desc (crops w)))
    ∧ (∀ v, of_weight v (sorted_desc (crops w)) = of_weight v (crops w))
    ∧ length (top_predictions r) = Nat.min 3 (length (crops w))
    ∧ (length (crops w) = 4 → length (top_predictions r) = 3)
    ∧ ((length (crops w) < 3)%nat →
       length (top_predictions r) = length (crops w)).
Proof.
  intros Hq Hw Hne Hok.
  destruct (recommend_rule_return w Hne) as (c0 & rest & Hsorted & Hrec).
  eexists. split.
  { rewrite (recommend_winner _ _ _ _ _ _ Hq), Hw. exact Hrec. }
  assert (Hlen : length (predictions_of (firstn 3 (sorted_desc (crops w))))
                 = Nat.min 3 (length (crops w))).
  { rewrite predictions_of_length, length_firstn, sorted_desc_length.
    reflexivity. }
  simpl. split; [reflexivity|].
  split; [apply sorted_desc_perm|].
  split.
  { apply no_rise_non_increasing.
    - apply (weights_ok_perm (crops w));
        [symmetry; apply sorted_desc_perm | exact Hok].
    - apply sorted_desc_no_rise, Hok. }
  split; [intros v; apply sorted_desc_stable, Hok|].
  split; [exact Hlen|].
  split; intros H; rewrite Hlen; lia.
Qed.

(** The Gangavathi Kharif rule has four options, the last two of weight
    0.15: Maize, listed before Cotton, is the third prediction. *)
Lemma C4_witness :
  ∃ r,
    recommend RULES (crop_request "Gangavathi" "Red soil" "Kharif" "Canal")
    = Return r
    ∧ top_predictions r
      = [ {| crop := str "Paddy"; score := 0.5 |};
          {| crop := str "Groundnut"; score := 0.2 |};
          {| crop := str "Maize"; score := 0.15 |} ].
Proof.
  destruct (C4_top3_stable_sort RULES
              (crop_request "Gangavathi" "Red soil" "Kharif" "Canal")
              (str "Gangavathi") (str "Red soil") (str "Kharif")
              (str "Canal")
              {| district := str "Gangavathi"; season := str "Kharif";
                 soil_types :=
                   [str "Red soil"; str "Black soil"; str "Alluvial soil"];
                 irrigation := [str "Canal"; str "Borewell"];
                 crops := [(str "Paddy", 0.5); (str "Groundnut", 0.2);
                           (str "Maize", 0.15); (str "Cotton", 0.15)]%float |})
    as (r & Hr & Hp & _).
  - vm_compute. repeat split.
  - vm_compute. reflexivity.
  - discriminate.
  - unfold weights_ok. simpl. repeat constructor.
  - exists r. split; [exact Hr|]. rewrite Hp. vm_compute. reflexivity.
Defined.

(** C5.  A request whose four fields are strings never makes the
    recommender raise: it returns an answer with at least one
    prediction. *)
Theorem C5_recommend_total
    (input_data : gmap string PyVal) (d so s ir : pystr) :
  string_fields input_data d so s ir →
  ∃ r,
    crop_recommender input_data = Return r
    ∧ (1 <= length (top_predictions r))%nat.
Proof.
  intros Hq. unfold crop_recommender.
  rewrite (recommend_winner _ _ _ _ _ _ Hq).
  destruct (winner RULES (strip d) (strip s) (strip so) (strip ir))
    as [w|] eqn:Hw.
  - pose proof (winner_in_rules _ _ _ _ _ _ Hw) as Hin.
    pose proof RULES_crops_nonempty as HN.
    rewrite List.Forall_forall in HN.
    assert (Hne : crops w ≠ []) by (apply HN, list_elem_of_In, Hin).
    destruct (recommend_rule_return w Hne) as (c0 & rest & Hsorted & Hrec).
    eexists. split; [exact Hrec|]. simpl.
    rewrite predictions_of_length, Hsorted. simpl. lia.
  - eexists. split; [reflexivity|]. simpl. lia.
Qed.

Lemma C5_witness :
  ∃ r,
    crop_recommender (crop_request "Vijaypur" "Black soil" "Rabi" "Rainfed")
    = Return r
    ∧ (1 <= length (top_predictions r))%nat.
Proof.
  apply (C5_recommend_total _ (str "Vijaypur") (str "Black soil")
           (str "Rabi") (str "Rainfed")).
  vm_compute. repeat split.
Defined.

(** C6.  Siruguppa, Kharif, Red soil with Canal: the loop of
    [_match_rules] puts the first rule of the table, and no other, in
    its exact list, [_match_rules] returns that rule alone, and the
    answer is Paddy with Paddy 0.55, Maize 0.25, Cotton 0.12.  With Drip
    the loop leaves the exact list empty and puts the same rule, and no
    other, in its soil list; [_match_rules] returns that rule alone and
    the answer is the same. *)
Theorem C6_siruguppa_kharif_red_soil
    (canal drip : gmap string PyVal) :
  string_fields canal (str "Siruguppa") (str "Red soil") (str "Kharif")
    (str "Canal") →
  string_fields drip (str "Siruguppa") (str "Red soil") (str "Kharif")
    (str "Drip") →
  crop_recommender canal
  = Return {| recommended_crop := str "Paddy";
              top_predictions :=
                [ {| crop := str "Paddy"; score := 0.55 |};
                  {| crop := str "Maize"; score := 0.25 |};
                  {| crop := str "Cotton"; score := 0.12 |} ] |}
  ∧ crop_recommender drip = crop_recommender canal
  ∧ fold_left
      (classify (strip (str "Siruguppa")) (strip (str "Kharif"))
         (strip (str "Red soil")) (strip (str "Canal")))
      RULES (mkBuckets [] [] [])
    = {| exact_matches := [siruguppa_kharif];
         soil_matches := [];
         season_matches := [] |}
  ∧ fold_left
      (classify (strip (str "Siruguppa")) (strip (str "Kharif"))
         (strip (str "Red soil")) (strip (str "Drip")))
      RULES (mkBuckets [] [] [])
    = {| exact_matches := [];
         soil_matches := [siruguppa_kharif];
         season_matches := [] |}
  ∧ _match_rules RULES (get canal "district") (get canal "season")
      (get canal "soil_type") (get canal "irrigation_source")
    = Return [siruguppa_kharif]
  ∧ _match_rules RULES (get drip "district") (get drip "season")
      (get drip "soil_type") (get drip "irrigation_source")
    = Return [siruguppa_kharif]
  ∧ head RULES = Some siruguppa_kharif
  ∧ best_tier RULES (str "Siruguppa") (str "Kharif") (str "Red soil")
      (str "Canal") = Some Exact
  ∧ best_tier RULES (str "Siruguppa") (str "Kharif") (str "Red soil")
      (str "Drip") = Some SoilOnly
  ∧ selected RULES (str "Siruguppa") (str "Kharif") (str "Red soil")
      (str "Drip")
    = selected RULES (str "Siruguppa") (str "Kharif") (str "Red soil")
        (str "Canal").
Proof.
  intros Hc Hd.
  pose proof Hc as (Hc1 & Hc2 & Hc3 & Hc4).
  pose proof Hd as (Hd1 & Hd2 & Hd3 & Hd4).
  rewrite Hc1, Hc2, Hc3, Hc4, Hd1, Hd2, Hd3, Hd4.
  unfold crop_recommender.
  rewrite (recommend_winner _ _ _ _ _ _ Hc), (recommend_winner _ _ _ _ _ _ Hd).
  repeat split; vm_compute; reflexivity.
Qed.

Lemma C6_witness :
  crop_recommender (crop_request "Siruguppa" "Red soil" "Kharif" "Drip")
  = crop_recommender (crop_request "Siruguppa" "Red soil" "Kharif" "Canal").
Proof.
  apply (C6_siruguppa_kharif_red_soil
           (crop_request "Siruguppa" "Red soil" "Kharif" "Canal")
           (crop_request "Siruguppa" "Red soil" "Kharif" "Drip")).
  - vm_compute. repeat split.
  - vm_compute. repeat split.
Defined.



(** C10.  In every answer of the recommender, from a rule or from the
    fallback, there is a first prediction, its crop is the recommended
    crop, and no score is followed by a greater one. *)
Theorem C10_first_is_recommended
    (input_data : gmap string PyVal) (r : Recommendation) :
  crop_recommender input_data = Return r →
  (∃ p rest, top_predictions r = p :: rest ∧ crop p = recommended_crop r)
  ∧ non_increasing (map score (top_predictions r)).
Proof.
  intros Hr. unfold crop_recommender in Hr.
  destruct (recommend_return _ _ _ Hr) as (d & so & s & ir & Hq).
  rewrite (recommend_winner _ _ _ _ _ _ Hq) in Hr.
  destruct (winner RULES (strip d) (strip s) (strip so) (strip ir))
    as [w|] eqn:Hw.
  - pose proof (winner_in_rules _ _ _ _ _ _ Hw) as Hin.
    apply list_elem_of_In in Hin.
    pose proof RULES_crops_nonempty as HN.
    pose proof RULES_weights_ok as HW.
    rewrite List.Forall_forall in HN, HW.
    destruct (recommend_rule_return w (HN w Hin))
      as (c0 & rest & Hsorted & Hrec).
    rewrite Hrec in Hr. injection Hr as <-. simpl. split.
    + rewrite Hsorted. simpl. eexists _, _. split; reflexivity.
    + rewrite predictions_of_scores, <- firstn_map.
      apply StronglySorted_firstn, no_rise_non_increasing.
      * apply (weights_ok_perm (crops w));
          [symmetry; apply sorted_desc_perm | exact (HW w Hin)].
      * apply sorted_desc_no_rise, (HW w Hin).
  - injection Hr as <-. simpl. split.
    + eexists _, _. split; reflexivity.
    + unfold non_increasing. repeat constructor.
Qed.

Lemma C10_witness :
  non_increasing
    [0.5; 0.2; 0.15]%float.
Proof.
  apply (C10_first_is_recommended
           (crop_request "Gangavathi" "Red soil" "Kharif" "Canal")
           {| recommended_crop := str "Paddy";
              top_predictions :=
                [ {| crop := str "Paddy"; score := 0.5 |};
                  {| crop := str "Groundnut"; score := 0.2 |};
                  {| crop := str "Maize"; score := 0.15 |} ] |}).
  vm_compute. reflexivity.
Defined.

End CropClaims.

(* ===================================================================== *)
(** * Properties of the yield predictor                                   *)
(* ===================================================================== *)

Section YieldFacts.

Import Yield CropSpec.

Variable Model : Type.
Variable model_predict : Model → list (string * Cell) → outcome float.
Variable round2 : float → float.
Variable uniform : float → float → float.
Variable randint : Z → Z → Z.

(** A value outside the vocabulary gets the code 0. *)
Lemma encode_value_unknown le v :
  (∀ s, v = PStr s → s ∉ classes_ le) → encode_value le v = 0.
Proof.
  intros Habs. destruct v as [s| | | |]; try reflexivity. simpl.
  rewrite bool_decide_eq_false_2 by (apply Habs; reflexivity). reflexivity.
Qed.

(** A value of the vocabulary gets its position. *)
Lemma encode_value_known le s :
  s ∈ classes_ le → encode_value le (PStr s) = index_of s (classes_ le).
Proof.
  intros Hin. simpl. rewrite bool_decide_eq_true_2 by exact Hin. reflexivity.
Qed.

Lemma available_all (input_data : gmap string PyVal) :
  Forall (fun f => is_Some (input_data !! f)) features →
  available_features input_data = features.
Proof.
  intros H. unfold available_features. apply filter_all.
  intros f Hf. rewrite List.Forall_forall in H. apply H, list_elem_of_In, Hf.
Qed.

(** With an encoder for every feature the frame holds codes only. *)
Lemma encode_row_numeric (self : YieldPredictor Model) input_data :
  Forall (fun f => is_Some (input_data !! f)) features →
  Forall (fun f => is_Some (label_encoders Model self !! f)) features →
  numeric_row (encode_row Model self input_data).
Proof.
  intros Hin Henc. unfold numeric_row, encode_row.
  rewrite (available_all _ Hin). split.
  - rewrite map_map. reflexivity.
  - apply Forall_map. eapply Forall_impl; [exact Henc|].
    intros f [le Hle]. simpl. unfold encode_cell. rewrite Hle. eauto.
Qed.

Lemma generate_recommendations_return (input_data : gmap string PyVal) :
  Forall (fun f => is_Some (input_data !! f)) features →
  ∃ recs, _generate_recommendations input_data = Return recs.
Proof.
  intros H. rewrite List.Forall_forall in H.
  destruct (H "soil_type") as [v1 H1]; [simpl; tauto|].
  destruct (H "irrigation_source") as [v2 H2]; [simpl; tauto|].
  destruct (H "season") as [v3 H3]; [simpl; tauto|].
  unfold _generate_recommendations, getitem. rewrite H1, H2, H3. simpl.
  eauto.
Qed.

(** [serve] answers when the estimator and the recommendations do. *)
Lemma serve_some (self : YieldPredictor Model) m input_data y :
  model_predict m (encode_row Model self input_data) = Return y →
  Forall (fun f => is_Some (input_data !! f)) features →
  ∃ r, serve Model model_predict round2 uniform randint self m input_data
       = Some r
       ∧ predicted_yield r = round2 y.
Proof.
  intros Hy Hin. destruct (generate_recommendations_return _ Hin) as [recs Hr].
  unfold serve. rewrite Hy. simpl. rewrite Hr. simpl.
  eexists. split; reflexivity.
Qed.

End YieldFacts.

Section YieldClaims.

Import Yield CropSpec.

Variable Model : Type.
Variable model_predict : Model → list (string * Cell) → outcome float.
Variable round2 : float → float.
Variable uniform : float → float → float.
Variable randint : Z → Z → Z.
Variable exc_str : PyExc → string.
Variable insert_one : YieldResult → outcome string.

(** C8.  A request carries the six features and the predictor has the
    model and an encoder for each feature.  When the value of a feature
    is not among the classes of its encoder, the cell of that feature is
    the code 0, the frame handed to the estimator holds codes only, and,
    the estimator answering on such frames, [predict] returns a result
    whose yield is the rounded answer of the estimator. *)
Theorem C8_unknown_category_code_zero
    (self : YieldPredictor Model) (m : Model) (files : Files Model)
    (input_data : gmap string PyVal) (feature : string)
    (le : LabelEncoder) (v : PyVal) :
  model Model self = Some m →
  Forall (fun f => is_Some (input_data !! f)) features →
  Forall (fun f => is_Some (label_encoders Model self !! f)) features →
  (∀ row, numeric_row row → ∃ y, model_predict m row = Return y) →
  feature ∈ features →
  input_data !! feature = Some v →
  label_encoders Model self !! feature = Some le →
  (∀ s, v = PStr s → s ∉ classes_ le) →
  encode_cell Model self input_data feature = Code 0
  ∧ (feature, Code 0) ∈ encode_row Model self input_data
  ∧ numeric_row (encode_row Model self input_data)
  ∧ ∃ y r,
      model_predict m (encode_row Model self input_data) = Return y
      ∧ predict Model model_predict round2 uniform randint
          self files input_data
        = (self, Some r)
      ∧ predicted_yield r = round2 y.
Proof.
  intros Hm Hin Henc Hest Hf Hv Hle Habs.
  assert (Hcell : encode_cell Model self input_data feature = Code 0).
  { unfold encode_cell. rewrite Hle, Hv. simpl.
    rewrite (encode_value_unknown le v Habs). reflexivity. }
  split; [exact Hcell|].
  split.
  { unfold encode_row. rewrite (available_all _ Hin), <- Hcell.
    apply (list_elem_of_fmap_2 (fun f => (f, encode_cell Model self input_data f))).
    exact Hf. }
  pose proof (encode_row_numeric Model self input_data Hin Henc) as Hnum.
  split; [exact Hnum|].
  destruct (Hest _ Hnum) as [y Hy].
  destruct (serve_some Model model_predict round2 uniform randint
              self m input_data y Hy Hin) as (r & Hr & Hyield).
  exists y, r. split; [exact Hy|]. split; [|exact Hyield].
  unfold predict. rewrite Hm, Hr. reflexivity.
Qed.

(** C9.  With no model in memory, [predict] loads the two pickle files.
    When one of the loads fails it returns [None], which the route turns
    into the error response 500 "Prediction model not available" (400
    when a required field is missing): the failure is not raised, and no
    prediction is made up.  When both loads succeed the loaded model and
    encoders become the state of the predictor and serve the request.
    With a model in memory the files are not read. *)
Theorem C9_lazy_load_failure_unavailable
    (self : YieldPredictor Model) (files : Files Model)
    (input_data yield_data : gmap string PyVal) :
  (model Model self = None →
   ((∃ e, yield_model_pkl Model files = Raise e)
    ∨ (∃ e, yield_encoders_pkl Model files = Raise e)) →
   snd (predict Model model_predict round2 uniform randint
          self files input_data) = None
   ∧ (∃ code detail,
        snd (predict_yield_route Model model_predict round2 uniform randint
               exc_str insert_one self files yield_data)
        = HTTPException code detail)
   ∧ (first_missing yield_data = None →
      snd (predict_yield_route Model model_predict round2 uniform randint
             exc_str insert_one self files yield_data)
      = HTTPException 500 "Prediction model not available"))
  ∧ (model Model self = None →
     ∀ m encoders,
       yield_model_pkl Model files = Return m →
       yield_encoders_pkl Model files = Return encoders →
       let loaded := {| model := Some m;
                        label_encoders := encoders;
                        is_trained_on_real_data := true |} in
       predict Model model_predict round2 uniform randint
         self files input_data
       = (loaded,
          serve Model model_predict round2 uniform randint
            loaded m input_data))
  ∧ (∀ m files',
       model Model self = Some m →
       predict Model model_predict round2 uniform randint
         self files' input_data
       = (self,
          serve Model model_predict round2 uniform randint
            self m input_data)).
Proof.
  assert (Hnone : ∀ input,
            model Model self = None →
            ((∃ e, yield_model_pkl Model files = Raise e)
             ∨ (∃ e, yield_encoders_pkl Model files = Raise e)) →
            snd (predict Model model_predict round2 uniform randint
                   self files input) = None).
  { intros input Hm Hfail. unfold predict. rewrite Hm.
    destruct (yield_model_pkl Model files) as [m|e1]; [|reflexivity].
    destruct Hfail as [[e He]|[e He]]; [discriminate|].
    rewrite He. reflexivity. }
  split; [|split].
  - intros Hm Hfail. split; [apply Hnone; assumption|].
    assert (Hroute : first_missing yield_data = None →
              snd (predict_yield_route Model model_predict round2 uniform
                     randint exc_str insert_one self files yield_data)
              = HTTPException 500 "Prediction model not available").
    { intros Hreq. unfold predict_yield_route. rewrite Hreq.
      pose proof (Hnone (model_input yield_data) Hm Hfail) as Hp.
      destruct (predict Model model_predict round2 uniform randint self
                  files (model_input yield_data)) as [self' res].
      simpl in Hp. rewrite Hp. reflexivity. }
    split; [|exact Hroute].
    destruct (first_missing yield_data) as [field|] eqn:Hreq.
    + unfold predict_yield_route. rewrite Hreq. eauto.
    + rewrite (Hroute eq_refl). eauto.
  - intros Hm m encoders Hmod Henc loaded.
    unfold predict. rewrite Hm, Hmod, Henc. reflexivity.
  - intros m files' Hm. unfold predict. rewrite Hm. reflexivity.
Qed.

End YieldClaims.

Section YieldWitnesses.

Import Yield CropSpec Examples.

(** A request for a district the encoder never saw. *)
Lemma C8_witness :
  encode_cell unit
    {| model := Some tt; label_encoders := fitted_encoders;
       is_trained_on_real_data := true |}
    (yield_input "Atlantis") "district"
  = Code 0.
Proof.
  apply (C8_unknown_category_code_zero unit toy_predict (fun x => x)
           (fun lo hi => lo) (fun lo hi => lo)
           {| model := Some tt; label_encoders := fitted_encoders;
              is_trained_on_real_data := true |}
           tt
           {| yield_model_pkl := Raise IOError;
              yield_encoders_pkl := Raise IOError |}
           (yield_input "Atlantis") "district"
           (mkLabelEncoder [str "Gangavathi"; str "Siruguppa"])
           (PStr (str "Atlantis"))).
  - reflexivity.
  - repeat constructor; vm_compute; eexists; reflexivity.
  - repeat constructor; vm_compute; eexists; reflexivity.
  - intros row [_ Hcodes]. exists 2.5%float. unfold toy_predict.
    assert (E : forallb (fun fc => match snd fc with
                                   | Code _ => true
                                   | Raw _ => false
                                   end) row = true).
    { apply forallb_forall. rewrite List.Forall_forall in Hcodes.
      intros fc Hfc. destruct (Hcodes fc Hfc) as [n ->]. reflexivity. }
    rewrite E. reflexivity.
  - vm_compute. right. left.
  - vm_compute. reflexivity.
  - vm_compute. reflexivity.
  - intros s [= <-]. vm_compute. intros H.
    repeat (apply elem_of_cons in H as [H|H]; [discriminate|]).
    inversion H.
Defined.

(** A fresh predictor and no pickle file on disk. *)
Lemma C9_witness :
  snd (predict unit toy_predict (fun x => x) (fun lo hi => lo)
         (fun lo hi => lo) (init unit)
         {| yield_model_pkl := Raise IOError;
            yield_encoders_pkl := Raise IOError |}
         (yield_input "Siruguppa"))
  = None
  ∧ snd (predict_yield_route unit toy_predict (fun x => x) (fun lo hi => lo)
           (fun lo hi => lo) toy_exc_str toy_insert_one (init unit)
           {| yield_model_pkl := Raise IOError;
              yield_encoders_pkl := Raise IOError |}
           (yield_input "Siruguppa"))
    = HTTPException 500 "Prediction model not available".
Proof.
  destruct (C9_lazy_load_failure_unavailable unit toy_predict (fun x => x)
              (fun lo hi => lo) (fun lo hi => lo) toy_exc_str toy_insert_one
              (init unit)
              {| yield_model_pkl := Raise IOError;
                 yield_encoders_pkl := Raise IOError |}
              (yield_input "Siruguppa") (yield_input "Siruguppa"))
    as [Hfail _].
  destruct Hfail as (Hp & _ & Hroute).
  - reflexivity.
  - left. exists IOError. reflexivity.
  - split; [exact Hp|]. apply Hroute. vm_compute. reflexivity.
Defined.

End YieldWitnesses.

(* ===================================================================== *)
(** * Further properties of the crop recommender                          *)
(* ===================================================================== *)

Section CropExtraFacts.

Import Crop CropSpec ExtraSpec.

(** Two criteria that agree on the elements of a list filter alike. *)
Lemma filter_ext_in {A} (P Q : A → Prop)
    `{!∀ x, Decision (P x)} `{!∀ x, Decision (Q x)} (l : list A) :
  (∀ x, x ∈ l → (P x ↔ Q x)) → filter P l = filter Q l.
Proof.
  induction l as [|x l IH]; intros Hl; [reflexivity|].
  rewrite !filter_cons.
  assert (Hx : P x ↔ Q x) by (apply Hl; left).
  assert (E : filter P l = filter Q l)
    by (apply IH; intros y Hy; apply Hl; right; exact Hy).
  destruct (decide (P x)) as [HP|HP], (decide (Q x)) as [HQ|HQ];
    try tauto; rewrite E; reflexivity.
Qed.

(** With an empty exact bucket, the soil-only bucket holds the candidates
    that accept the soil, whatever the irrigation source. *)
Lemma soil_only_bucket rules d s so ir :
  bucket Exact rules d s so ir = [] →
  bucket SoilOnly rules d s so ir
  = filter (fun r => so ∈ soil_types r) (candidates rules d s).
Proof.
  intros HE. unfold bucket. apply filter_ext_in. intros r Hr. simpl.
  split; [tauto|]. intros Hso. split; [exact Hso|]. intros Hir.
  assert (Hin : r ∈ bucket Exact rules d s so ir).
  { unfold bucket. apply list_elem_of_filter. split; [split|]; assumption. }
  rewrite HE in Hin. inversion Hin.
Qed.

(** The rule taken by [recommend], read on the result. *)
Lemma recommend_rule_inv w r :
  recommend_rule w = Return r →
  ∃ c0 rest,
    sorted_desc (crops w) = c0 :: rest
    ∧ r = {| recommended_crop := fst c0;
             top_predictions :=
               predictions_of (firstn 3 (sorted_desc (crops w))) |}.
Proof.
  unfold recommend_rule.
  destruct (sorted_desc (crops w)) as [|c0 rest] eqn:E; [discriminate|].
  intros [= <-]. exists c0, rest. split; reflexivity.
Qed.

Lemma recommend_rule_raise w e :
  recommend_rule w = Raise e → e = IndexError ∧ crops w = [].
Proof.
  unfold recommend_rule.
  destruct (sorted_desc (crops w)) as [|c0 rest] eqn:E; [|discriminate].
  intros [= <-]. split; [reflexivity|].
  destruct (crops w) as [|c l] eqn:Hc; [reflexivity|].
  exfalso. apply (sorted_desc_nonempty (c :: l)); [discriminate | exact E].
Qed.

Lemma get_insert_ne (input_data : gmap string PyVal) k k' v :
  k ≠ k' → get (<[k := v]> input_data) k' = get input_data k'.
Proof. intros Hne. unfold get. rewrite lookup_insert_ne by exact Hne. reflexivity. Qed.

(** Filtering the candidates again changes nothing. *)
Lemma candidates_idemp rules d s :
  candidates (candidates rules d s) d s = candidates rules d s.
Proof.
  unfold candidates. rewrite list_filter_filter.
  apply filter_ext_in. intros r _. tauto.
Qed.

End CropExtraFacts.

Section CropExtras.

Import Crop CropSpec ExtraSpec Examples.

(** X1.  [recommend] raises [AttributeError] exactly when one of the four
    fields it reads holds a value that is not a string. *)
Theorem X1_recommend_attribute_error
    (rules : list Rule) (input_data : gmap string PyVal) :
  recommend rules input_data = Raise AttributeError
  ↔ ∃ k, k ∈ query_keys ∧ ∀ s, get input_data k ≠ PStr s.
Proof.
  unfold recommend, _match_rules, query_keys.
  destruct (get input_data "district") as [d| | | |] eqn:Hd;
  destruct (get input_data "season") as [s| | | |] eqn:Hs;
  destruct (get input_data "soil_type") as [so| | | |] eqn:Hso;
  destruct (get input_data "irrigation_source") as [ir| | | |] eqn:Hir;
    simpl;
    try (split; [intros _|reflexivity];
         first
           [ exists "district"; split;
             [set_solver | intros s0; rewrite Hd; discriminate]
           | exists "season"; split;
             [set_solver | intros s0; rewrite Hs; discriminate]
           | exists "soil_type"; split;
             [set_solver | intros s0; rewrite Hso; discriminate]
           | exists "irrigation_source"; split;
             [set_solver | intros s0; rewrite Hir; discriminate] ]).
  split.
  - intros H. exfalso.
    match type of H with
    | match ?l with _ => _ end = _ => destruct l as [|w l']
    end.
    + discriminate.
    + apply recommend_rule_raise in H as [H _]. discriminate.
  - intros (k & Hk & Hne). exfalso.
    repeat (apply elem_of_cons in Hk as [->|Hk]);
      [eapply Hne, Hd | eapply Hne, Hso | eapply Hne, Hs | eapply Hne, Hir|].
    inversion Hk.
Qed.

(** X2.  On a request of four strings [recommend] raises [IndexError]
    exactly when the rule taken lists no crop; it never does on the
    table [RULES]. *)
Theorem X2_recommend_index_error
    (rules : list Rule) (input_data : gmap string PyVal) (d so s ir : pystr) :
  string_fields input_data d so s ir →
  (recommend rules input_data = Raise IndexError
   ↔ ∃ w, winner rules (strip d) (strip s) (strip so) (strip ir) = Some w
          ∧ crops w = [])
  ∧ crop_recommender input_data ≠ Raise IndexError.
Proof.
  intros Hq. split.
  - rewrite (recommend_winner _ _ _ _ _ _ Hq).
    destruct (winner rules (strip d) (strip s) (strip so) (strip ir))
      as [w|].
    + split.
      * intros H. apply recommend_rule_raise in H as [_ H]. eauto.
      * intros (w' & [= <-] & Hc). unfold recommend_rule. rewrite Hc.
        reflexivity.
    + split; [discriminate|]. intros (w & Hw & _). discriminate.
  - unfold crop_recommender. rewrite (recommend_winner _ _ _ _ _ _ Hq).
    destruct (winner RULES (strip d) (strip s) (strip so) (strip ir))
      as [w|] eqn:Hw; [|discriminate].
    intros H. apply recommend_rule_raise in H as [_ H].
    pose proof (winner_in_rules _ _ _ _ _ _ Hw) as Hin.
    pose proof RULES_crops_nonempty as HN.
    rewrite List.Forall_forall in HN.
    apply (HN w); [apply list_elem_of_In, Hin | exact H].
Qed.

Lemma X2_witness :
  recommend empty_rule_table
    (crop_request "Hampi" "Red soil" "Kharif" "Canal")
  = Raise IndexError.
Proof.
  apply (X2_recommend_index_error empty_rule_table
           (crop_request "Hampi" "Red soil" "Kharif" "Canal")
           (str "Hampi") (str "Red soil") (str "Kharif") (str "Canal")).
  - vm_compute. repeat split.
  - eexists. split; vm_compute; reflexivity.
Defined.

(** X3.  [recommend] reads the keys district, soil_type, season and
    irrigation_source only: setting any other key of the request, the
    state for one, leaves the answer as it was. *)
Theorem X3_recommend_ignores_other_keys
    (rules : list Rule) (input_data : gmap string PyVal)
    (k : string) (v : PyVal) :
  k ∉ query_keys →
  recommend rules (<[k := v]> input_data) = recommend rules input_data.
Proof.
  intros Hk. unfold query_keys in Hk. unfold recommend.
  rewrite !get_insert_ne; [reflexivity| | | |];
    intros ->; apply Hk; set_solver.
Qed.

Lemma X3_witness :
  recommend RULES
    (<["state" := (PStr (str "Kerala"))]>
       (crop_request "Siruguppa" "Red soil" "Kharif" "Canal"))
  = recommend RULES (crop_request "Siruguppa" "Red soil" "Kharif" "Canal").
Proof.
  apply (X3_recommend_ignores_other_keys RULES
           (crop_request "Siruguppa" "Red soil" "Kharif" "Canal")
           "state" (PStr (str "Kerala"))).
  unfold query_keys. intros H.
  repeat (apply elem_of_cons in H as [H|H]; [discriminate|]).
  inversion H.
Defined.

(** X4.  When no candidate accepts both the soil and the irrigation
    source but some candidate accepts the soil, the answer is the one of
    the first rule of the table with the district, the season and the
    soil of the query (the soil-only bucket). *)
Theorem X4_soil_only_first_soil_match
    (rules : list Rule) (input_data : gmap string PyVal) (d so s ir : pystr)
    (r0 : Rule) :
  string_fields input_data d so s ir →
  bucket Exact rules (strip d) (strip s) (strip so) (strip ir) = [] →
  r0 ∈ candidates rules (strip d) (strip s) →
  strip so ∈ soil_types r0 →
  ∃ w,
    first_such (fun r => strip so ∈ soil_types r
                         ∧ candidate (strip d) (strip s) r) rules w
    ∧ (strip ir ∉ irrigation w)
    ∧ best_tier rules (strip d) (strip s) (strip so) (strip ir)
      = Some SoilOnly
    ∧ recommend rules input_data = recommend_rule w.
Proof.
  intros Hq HE Hr0 Hso.
  pose proof (soil_only_bucket _ _ _ _ _ HE) as HS.
  assert (Hin : r0 ∈ bucket SoilOnly rules (strip d) (strip s) (strip so)
                       (strip ir)).
  { rewrite HS. apply list_elem_of_filter. split; assumption. }
  destruct (bucket SoilOnly rules (strip d) (strip s) (strip so) (strip ir))
    as [|w rest] eqn:Hb; [inversion Hin|].
  assert (Hbest : best_tier rules (strip d) (strip s) (strip so) (strip ir)
                  = Some SoilOnly).
  { unfold best_tier. rewrite HE, Hb. reflexivity. }
  assert (Hw : winner rules (strip d) (strip s) (strip so) (strip ir)
               = Some w).
  { unfold winner, selected. rewrite Hbest, Hb. reflexivity. }
  exists w. split.
  { assert (Hhead :
              head (filter (fun r => strip so ∈ soil_types r
                                     ∧ candidate (strip d) (strip s) r)
                      rules) = Some w).
    { unfold candidates in HS. rewrite list_filter_filter in HS.
      rewrite <- HS. reflexivity. }
    exact (head_filter_first _ rules w Hhead). }
  split.
  { assert (Hwin : w ∈ bucket SoilOnly rules (strip d) (strip s) (strip so)
                         (strip ir)) by (rewrite Hb; left).
    unfold bucket in Hwin. apply list_elem_of_filter in Hwin as [[_ Hir] _].
    exact Hir. }
  split; [exact Hbest|].
  rewrite (recommend_winner _ _ _ _ _ _ Hq), Hw. reflexivity.
Qed.

Lemma X4_witness :
  ∃ w,
    (strip (str "Drip") ∉ irrigation w)
    ∧ recommend RULES (crop_request "Siruguppa" "Red soil" "Kharif" "Drip")
      = recommend_rule w.
Proof.
  destruct (X4_soil_only_first_soil_match RULES
              (crop_request "Siruguppa" "Red soil" "Kharif" "Drip")
              (str "Siruguppa") (str "Red soil") (str "Kharif") (str "Drip")
              {| district := str "Siruguppa"; season := str "Kharif";
                 soil_types :=
                   [str "Red soil"; str "Black soil"; str "Alluvial soil"];
                 irrigation := [str "Canal"; str "Borewell"];
                 crops := [(str "Paddy", 0.55); (str "Maize", 0.25);
                           (str "Cotton", 0.12);
                           (str "Red gram", 0.08)]%float |})
    as (w & _ & Hir & _ & Hrec).
  - vm_compute. repeat split.
  - vm_compute. reflexivity.
  - vm_compute. left.
  - vm_compute. left.
  - exists w. split; assumption.
Defined.

(** X5.  The irrigation source matters through the exact bucket only:
    two requests that differ in the irrigation source alone, neither of
    which has an exact match, get the same answer. *)
Theorem X5_irrigation_only_through_exact
    (rules : list Rule) (input1 input2 : gmap string PyVal)
    (d so s ir1 ir2 : pystr) :
  string_fields input1 d so s ir1 →
  string_fields input2 d so s ir2 →
  bucket Exact rules (strip d) (strip s) (strip so) (strip ir1) = [] →
  bucket Exact rules (strip d) (strip s) (strip so) (strip ir2) = [] →
  recommend rules input1 = recommend rules input2.
Proof.
  intros H1 H2 HE1 HE2.
  rewrite (recommend_winner _ _ _ _ _ _ H1), (recommend_winner _ _ _ _ _ _ H2).
  assert (E : selected rules (strip d) (strip s) (strip so) (strip ir1)
              = selected rules (strip d) (strip s) (strip so) (strip ir2)).
  { unfold selected, best_tier. rewrite HE1, HE2.
    rewrite !soil_only_bucket by assumption.
    change (bucket Residual rules (strip d) (strip s) (strip so) (strip ir1))
      with (bucket Residual rules (strip d) (strip s) (strip so) (strip ir2)).
    destruct (filter _ _) eqn:E1.
    - destruct (bucket Residual _ _ _ _ _); reflexivity.
    - rewrite !soil_only_bucket by assumption. reflexivity. }
  unfold winner. rewrite E. reflexivity.
Qed.

Lemma X5_witness :
  recommend RULES (crop_request "Siruguppa" "Red soil" "Kharif" "Drip")
  = recommend RULES (crop_request "Siruguppa" "Red soil" "Kharif" "Rainfed").
Proof.
  apply (X5_irrigation_only_through_exact RULES _ _
           (str "Siruguppa") (str "Red soil") (str "Kharif")
           (str "Drip") (str "Rainfed")).
  - vm_compute. repeat split.
  - vm_compute. repeat split.
  - vm_compute. reflexivity.
  - vm_compute. reflexivity.
Defined.

(** X6.  [recommend] never makes up a crop or a score: an answer is the
    fallback, or it holds one to three predictions each of which is an
    option, label and weight, of one rule of the table that has the
    trimmed district and season of the request. *)
Theorem X6_predictions_from_one_rule
    (rules : list Rule) (input_data : gmap string PyVal)
    (r : Recommendation) :
  recommend rules input_data = Return r →
  (1 <= length (top_predictions r) <= 3)%nat
  ∧ (recommend rules input_data = fallback
     ∨ ∃ w d s,
         w ∈ rules
         ∧ get input_data "district" = PStr d
         ∧ get input_data "season" = PStr s
         ∧ district w = strip d
         ∧ season w = strip s
         ∧ ∀ p, p ∈ top_predictions r → (crop p, score p) ∈ crops w).
Proof.
  intros Hr.
  destruct (recommend_return _ _ _ Hr) as (d & so & s & ir & Hq).
  pose proof Hq as (Hd & _ & Hs & _).
  rewrite (recommend_winner _ _ _ _ _ _ Hq) in Hr |- *.
  destruct (winner rules (strip d) (strip s) (strip so) (strip ir))
    as [w|] eqn:Hw.
  - destruct (recommend_rule_inv _ _ Hr) as (c0 & rest & Hsorted & ->).
    simpl. split.
    { rewrite predictions_of_length, length_firstn, Hsorted. simpl length.
      lia. }
    right. exists w, d, s.
    split; [exact (winner_in_rules _ _ _ _ _ _ Hw)|].
    split; [exact Hd|]. split; [exact Hs|].
    apply winner_first in Hw as (t & _ & pre & post & _ & [_ [Hwd Hws]] & _).
    split; [exact Hwd|]. split; [exact Hws|].
    intros p Hp. unfold predictions_of in Hp.
    apply list_elem_of_fmap in Hp as (cs & -> & Hcs). simpl.
    destruct cs as [c x]. simpl.
    apply list_elem_of_In.
    apply (Permutation_in _ (sorted_desc_perm (crops w))).
    rewrite <- (firstn_skipn 3 (sorted_desc (crops w))).
    apply in_or_app. left. apply list_elem_of_In, Hcs.
  - injection Hr as <-. simpl. split; [lia|]. left. reflexivity.
Qed.

Lemma X6_witness :
  (1 <= length
          [ {| crop := str "Paddy"; score := 0.5 |};
            {| crop := str "Groundnut"; score := 0.2 |};
            {| crop := str "Maize"; score := 0.15 |} ]%float
   <= 3)%nat.
Proof.
  apply (X6_predictions_from_one_rule RULES
           (crop_request "Gangavathi" "Red soil" "Kharif" "Canal")
           {| recommended_crop := str "Paddy";
              top_predictions :=
                [ {| crop := str "Paddy"; score := 0.5 |};
                  {| crop := str "Groundnut"; score := 0.2 |};
                  {| crop := str "Maize"; score := 0.15 |} ] |}).
  vm_compute. reflexivity.
Defined.

(** X7.  The recommended crop is an option of the rule taken whose
    weight no other option of the rule exceeds, the options left out of
    the top three included; among the options of that weight it is the
    one listed first. *)
Theorem X7_recommended_crop_greatest_weight
    (rules : list Rule) (input_data : gmap string PyVal) (d so s ir : pystr)
    (w : Rule) (r : Recommendation) :
  string_fields input_data d so s ir →
  winner rules (strip d) (strip s) (strip so) (strip ir) = Some w →
  weights_ok (crops w) →
  recommend rules input_data = Return r →
  ∃ x,
    (recommended_crop r, x) ∈ crops w
    ∧ (∀ c, c ∈ crops w → PrimFloat.leb (snd c) x = true)
    ∧ first_of_weight (crops w) (recommended_crop r, x).
Proof.
  intros Hq Hw Hok Hr.
  rewrite (recommend_winner _ _ _ _ _ _ Hq), Hw in Hr.
  destruct (recommend_rule_inv _ _ Hr) as ([l0 x] & rest & Hsorted & ->).
  simpl. exists x.
  pose proof (sorted_desc_perm (crops w)) as HP.
  pose proof (sorted_desc_no_rise _ Hok) as HS.
  pose proof (weights_ok_perm _ _ (Permutation_sym HP) Hok) as Hok'.
  rewrite Hsorted in HP, HS, Hok'.
  assert (Hx : PrimFloat.is_nan x = false).
  { apply List.Forall_cons_iff in Hok' as [Hx _]. exact Hx. }
  split.
  { apply list_elem_of_In. apply (Permutation_in _ HP). left. reflexivity. }
  split.
  { intros c Hc. apply list_elem_of_In in Hc.
    apply (Permutation_in _ (Permutation_sym HP)) in Hc.
    unfold weights_ok in Hok'. rewrite List.Forall_forall in Hok'.
    pose proof (Hok' c Hc) as Hcn.
    destruct Hc as [<-|Hc].
    - simpl. rewrite FloatOrder.leb_lex by assumption.
      assert (R : FloatOrder.lex3 (FloatOrder.fkey x) (FloatOrder.fkey x) = Eq)
        by (apply FloatOrder.lex3_eq; reflexivity).
      rewrite R. reflexivity.
    - apply FloatOrder.leb_of_not_ltb; [exact Hx | exact Hcn |].
      inversion HS as [|? ? _ Hall]; subst.
      rewrite List.Forall_forall in Hall. exact (Hall c Hc). }
  unfold first_of_weight. simpl.
  rewrite <- (sorted_desc_stable x _ Hok), Hsorted. simpl.
  rewrite FloatOrder.eqb_lex by assumption.
  assert (R : FloatOrder.lex3 (FloatOrder.fkey x) (FloatOrder.fkey x) = Eq)
    by (apply FloatOrder.lex3_eq; reflexivity).
  rewrite R. reflexivity.
Qed.

(** Gangavathi in Rabi: Sunflower and Chickpea both weigh 0.3, and
    Groundnut, of weight 0.4, is recommended. *)
Lemma X7_witness :
  ∃ x,
    first_of_weight
      [(str "Groundnut", 0.4); (str "Sunflower", 0.3);
       (str "Chickpea", 0.3)]%float
      (str "Groundnut", x).
Proof.
  destruct (X7_recommended_crop_greatest_weight RULES
              (crop_request "Gangavathi" "Red soil" "Rabi" "Borewell")
              (str "Gangavathi") (str "Red soil") (str "Rabi")
              (str "Borewell")
              {| district := str "Gangavathi"; season := str "Rabi";
                 soil_types := [str "Red soil"; str "Black soil"];
                 irrigation := [str "Borewell"];
                 crops := [(str "Groundnut", 0.4); (str "Sunflower", 0.3);
                           (str "Chickpea", 0.3)]%float |}
              {| recommended_crop := str "Groundnut";
                 top_predictions :=
                   [ {| crop := str "Groundnut"; score := 0.4 |};
                     {| crop := str "Sunflower"; score := 0.3 |};
                     {| crop := str "Chickpea"; score := 0.3 |} ] |})
    as (x & _ & _ & Hfirst).
  - vm_compute. repeat split.
  - vm_compute. reflexivity.
  - unfold weights_ok. simpl. repeat constructor.
  - vm_compute. reflexivity.
  - exists x. exact Hfirst.
Defined.

(** X18.  Only the rules of the district and season of the request take
    part in an answer: the answer on a table is the answer on the list
    of its candidates, so rules for other districts or seasons, wherever
    they stand in the table, change nothing. *)
Theorem X18_only_candidates_matter
    (rules : list Rule) (input_data : gmap string PyVal) (d so s ir : pystr) :
  string_fields input_data d so s ir →
  recommend rules input_data
  = recommend (candidates rules (strip d) (strip s)) input_data.
Proof.
  intros Hq.
  rewrite (recommend_winner rules _ _ _ _ _ Hq),
    (recommend_winner (candidates rules (strip d) (strip s)) _ _ _ _ _ Hq).
  unfold winner, selected, best_tier, bucket.
  rewrite !candidates_idemp. reflexivity.
Qed.

Lemma X18_witness :
  recommend RULES (crop_request "Vijaypur" "Black soil" "Rabi" "Rainfed")
  = recommend
      [ {| district := str "Vijaypur"; season := str "Rabi";
           soil_types := [str "Black soil"];
           irrigation := [str "Rainfed"; str "Borewell"];
           crops := [(str "Wheat", 0.4); (str "Chickpea", 0.35);
                     (str "Linseed", 0.25)]%float |} ]
      (crop_request "Vijaypur" "Black soil" "Rabi" "Rainfed").
Proof.
  apply (X18_only_candidates_matter RULES
           (crop_request "Vijaypur" "Black soil" "Rabi" "Rainfed")
           (str "Vijaypur") (str "Black soil") (str "Rabi") (str "Rainfed")).
  vm_compute. repeat split.
Defined.

End CropExtras.

(* ===================================================================== *)
(** * Properties of the crop route                                        *)
(* ===================================================================== *)

Section CropRouteFacts.

Import Crop CropSpec ExtraSpec.

Lemma model_input_fields (payload : CropRoute.CropRequestModel) :
  string_fields (CropRoute.model_input payload)
    (CropRoute.district payload) (CropRoute.soil_type payload)
    (CropRoute.season payload) (CropRoute.irrigation_source payload).
Proof.
  unfold string_fields, get, CropRoute.model_input.
  repeat split; simplify_map_eq; reflexivity.
Qed.

(** Every prediction of a rule is one of its options. *)
Lemma top3_option (l : list (pystr * float)) (p : Prediction) :
  p ∈ predictions_of (firstn 3 (sorted_desc l)) → (crop p, score p) ∈ l.
Proof.
  intros Hp. unfold predictions_of in Hp.
  apply list_elem_of_fmap in Hp as ([c x] & -> & Hcs). simpl.
  apply list_elem_of_In.
  apply (Permutation_in _ (sorted_desc_perm l)).
  rewrite <- (firstn_skipn 3 (sorted_desc l)).
  apply in_or_app. left. apply list_elem_of_In, Hcs.
Qed.

(** The weights of the table are finite numbers. *)
Lemma RULES_json_floats :
  Forall (fun r => Forall (fun cs => CropRoute.json_float (snd cs) = true)
                     (crops r))
    RULES.
Proof. unfold RULES. repeat constructor. Qed.

(** What the recommender on [RULES] answers to four strings. *)
Lemma crop_recommender_answer input_data d so s ir :
  string_fields input_data d so s ir →
  ∃ r p rest,
    crop_recommender input_data = Return r
    ∧ top_predictions r = p :: rest
    ∧ crop p = recommended_crop r
    ∧ (length (top_predictions r) <= 3)%nat
    ∧ Forall (fun q => CropRoute.json_float (score q) = true)
        (top_predictions r).
Proof.
  intros Hq. unfold crop_recommender.
  rewrite (recommend_winner _ _ _ _ _ _ Hq).
  destruct (winner RULES (strip d) (strip s) (strip so) (strip ir))
    as [w|] eqn:Hw.
  - pose proof (winner_in_rules _ _ _ _ _ _ Hw) as Hin.
    apply list_elem_of_In in Hin.
    pose proof RULES_crops_nonempty as HN.
    pose proof RULES_json_floats as HF.
    rewrite List.Forall_forall in HN, HF.
    destruct (recommend_rule_return w (HN w Hin))
      as (c0 & rest & Hsorted & Hrec).
    eexists _, _, _. split; [exact Hrec|]. simpl.
    split; [rewrite Hsorted; reflexivity|].
    split; [reflexivity|].
    split; [rewrite predictions_of_length, length_firstn; lia|].
    apply List.Forall_forall. intros q Hq'.
    apply list_elem_of_In, top3_option in Hq'.
    pose proof (HF w Hin) as HFw. rewrite List.Forall_forall in HFw.
    apply (HFw (crop q, score q)). apply list_elem_of_In, Hq'.
  - eexists _, _, _. split; [reflexivity|]. simpl.
    split; [reflexivity|]. split; [reflexivity|]. split; [lia|].
    repeat constructor.
Qed.

End CropRouteFacts.

Section CropRouteExtras.

Import Crop CropSpec ExtraSpec.

(** X8.  The crop route answers every validated request with status 200
    and never with the 500 of its [except] branch.  The body has the
    status success and one to three recommendations, which are the
    predictions of the recommender in the same order with the same
    scores (the replacement list of lines 69-74 is never used); each
    entry repeats its crop as name and label, the list is also sent as
    top_predictions, and the recommended crop is the crop of the first
    entry. *)
Theorem X8_crop_route_always_200 (payload : CropRoute.CropRequestModel) :
  ∃ r content first rest,
    crop_recommender (CropRoute.model_input payload) = Return r
    ∧ CropRoute.get_crop_recommendations payload
      = CropRoute.JSONResponse 200 content
    ∧ CropRoute.status content = str "success"
    ∧ CropRoute.recommended_crop content = recommended_crop r
    ∧ CropRoute.top_predictions content = CropRoute.recommendations content
    ∧ map (fun item => (CropRoute.crop item, CropRoute.score item))
        (CropRoute.recommendations content)
      = map (fun p => (crop p, score p)) (top_predictions r)
    ∧ Forall (fun item => CropRoute.name item = CropRoute.crop item
                          ∧ CropRoute.label item = CropRoute.crop item)
        (CropRoute.recommendations content)
    ∧ CropRoute.recommendations content = first :: rest
    ∧ CropRoute.crop first = CropRoute.recommended_crop content
    ∧ (length (CropRoute.recommendations content) <= 3)%nat.
Proof.
  destruct (crop_recommender_answer _ _ _ _ _ (model_input_fields payload))
    as (r & p & rest & Hr & Hp & Hcrop & Hlen & Hfin).
  unfold CropRoute.get_crop_recommendations. rewrite Hr. cbv zeta.
  assert (Hnorm : CropRoute.normalize (top_predictions r)
                  = {| CropRoute.crop := crop p; CropRoute.name := crop p;
                       CropRoute.label := crop p;
                       CropRoute.score := score p |}
                    :: CropRoute.normalize rest).
  { rewrite Hp. reflexivity. }
  assert (Hjson : forallb (fun item => CropRoute.json_float (CropRoute.score item))
                    (CropRoute.normalize (top_predictions r)) = true).
  { apply forallb_forall. intros item Hitem.
    unfold CropRoute.normalize in Hitem.
    apply in_map_iff in Hitem as (q & <- & Hq). simpl.
    rewrite List.Forall_forall in Hfin. exact (Hfin q Hq). }
  rewrite Hnorm in Hjson |- *. rewrite Hjson.
  eexists r, _, _, _. split; [reflexivity|]. split; [reflexivity|]. simpl.
  split; [reflexivity|]. split; [reflexivity|]. split; [reflexivity|].
  split.
  { rewrite Hp. simpl. f_equal. unfold CropRoute.normalize.
    rewrite map_map. reflexivity. }
  split.
  { constructor; [split; reflexivity|]. unfold CropRoute.normalize.
    apply List.Forall_forall. intros item Hitem.
    apply in_map_iff in Hitem as (q & <- & _). split; reflexivity. }
  split; [reflexivity|]. split; [exact Hcrop|].
  rewrite Hp in Hlen. simpl in Hlen |- *. unfold CropRoute.normalize.
  rewrite length_map. exact Hlen.
Qed.

(** X9.  The answer of the crop route depends on the district, the soil
    type, the season and the irrigation source up to surrounding
    whitespace, and on nothing else: the state and the user id of the
    request play no part. *)
Theorem X9_crop_route_ignores_state_and_user
    (p1 p2 : CropRoute.CropRequestModel) :
  strip (CropRoute.district p1) = strip (CropRoute.district p2) →
  strip (CropRoute.soil_type p1) = strip (CropRoute.soil_type p2) →
  strip (CropRoute.season p1) = strip (CropRoute.season p2) →
  strip (CropRoute.irrigation_source p1)
  = strip (CropRoute.irrigation_source p2) →
  CropRoute.get_crop_recommendations p1
  = CropRoute.get_crop_recommendations p2.
Proof.
  intros Hd Hso Hs Hir. unfold CropRoute.get_crop_recommendations.
  unfold crop_recommender.
  rewrite (recommend_winner _ _ _ _ _ _ (model_input_fields p1)).
  rewrite (recommend_winner _ _ _ _ _ _ (model_input_fields p2)).
  rewrite Hd, Hso, Hs, Hir. reflexivity.
Qed.

Lemma X9_witness :
  CropRoute.get_crop_recommendations
    (payload "Karnataka" "Siruguppa" "Red soil" "Kharif" "Canal" None)
  = CropRoute.get_crop_recommendations
      (payload "Kerala" " Siruguppa " "Red soil  " " Kharif" "Canal"
         (Some (str "u42"))).
Proof.
  apply (X9_crop_route_ignores_state_and_user
           (payload "Karnataka" "Siruguppa" "Red soil" "Kharif" "Canal" None)
           (payload "Kerala" " Siruguppa " "Red soil  " " Kharif" "Canal"
              (Some (str "u42"))));
    vm_compute; reflexivity.
Defined.

End CropRouteExtras.

(* ===================================================================== *)
(** * Further properties of the yield predictor and its route             *)
(* ===================================================================== *)

Section YieldExtraFacts.

Import Yield CropSpec ExtraSpec.

Lemma index_of_lookup (s : pystr) (l : list pystr) :
  s ∈ l → l !! index_of s l = Some s.
Proof.
  induction l as [|c l IH]; intros Hin; [inversion Hin|]. simpl.
  destruct (decide (c = s)) as [->|Hne].
  - rewrite bool_decide_eq_true_2 by reflexivity. reflexivity.
  - rewrite bool_decide_eq_false_2 by exact Hne. simpl. apply IH.
    apply elem_of_cons in Hin as [->|Hin]; [congruence | exact Hin].
Qed.

(** [List.find] gives the first element that passes. *)
Lemma find_first_such {A} (b : A → bool) (P : A → Prop) (l : list A) w :
  (∀ x, b x = true ↔ P x) → first_such P l w → List.find b l = Some w.
Proof.
  intros Hb (pre & post & -> & Hw & Hpre).
  induction Hpre as [|x pre Hx _ IH]; simpl.
  - apply Hb in Hw. rewrite Hw. reflexivity.
  - destruct (b x) eqn:E; [apply Hb in E; contradiction | exact IH].
Qed.

Lemma unusable_test (yield_data : gmap string PyVal) field :
  negb (match yield_data !! field with
        | Some v => truthy v
        | None => false
        end) = true
  ↔ unusable yield_data field.
Proof.
  unfold unusable. destruct (yield_data !! field) as [v|]; simpl.
  - rewrite negb_true_iff. split.
    + intros H v' [= <-]. exact H.
    + intros H. apply H. reflexivity.
  - split; [intros _ v' H'; discriminate | reflexivity].
Qed.

(** The dict comprehension of the route keeps the model features and
    nothing else. *)
Lemma fold_features_lookup (yield_data acc : gmap string PyVal)
    (l : list string) (k : string) :
  fold_left (fun acc feature =>
               match yield_data !! feature with
               | Some v => <[feature := v]> acc
               | None => acc
               end) l acc !! k
  = match (if bool_decide (k ∈ l) then yield_data !! k else None) with
    | Some v => Some v
    | None => acc !! k
    end.
Proof.
  revert acc. induction l as [|f l IH]; intros acc; cbn [fold_left].
  - rewrite bool_decide_eq_false_2 by (intros H; inversion H). reflexivity.
  - rewrite IH. destruct (decide (k ∈ l)) as [Hl|Hl].
    + rewrite (bool_decide_eq_true_2 _ Hl).
      rewrite (bool_decide_eq_true_2 (k ∈ f :: l)) by (right; exact Hl).
      destruct (yield_data !! k) as [v|] eqn:Hk; [reflexivity|].
      destruct (decide (k = f)) as [->|Hne].
      * rewrite Hk. reflexivity.
      * destruct (yield_data !! f); [|reflexivity].
        apply lookup_insert_ne. congruence.
    + rewrite (bool_decide_eq_false_2 _ Hl).
      destruct (decide (k = f)) as [->|Hne].
      * rewrite (bool_decide_eq_true_2 (f ∈ f :: l)) by left.
        destruct (yield_data !! f) as [v|]; [|reflexivity].
        apply lookup_insert_eq.
      * rewrite (bool_decide_eq_false_2 (k ∈ f :: l)).
        2:{ intros H. apply elem_of_cons in H as [H|H]; contradiction. }
        destruct (yield_data !! f); [|reflexivity].
        apply lookup_insert_ne. congruence.
Qed.

Lemma usable_present (yield_data : gmap string PyVal) field :
  ¬ unusable yield_data field → is_Some (yield_data !! field).
Proof.
  intros H. destruct (yield_data !! field) as [v|] eqn:E; [eauto|].
  exfalso. apply H. intros v Hv. congruence.
Qed.

End YieldExtraFacts.

Section YieldExtras.

Import Yield CropSpec ExtraSpec.

Variable Model : Type.
Variable model_predict : Model → list (string * Cell) → outcome float.
Variable round2 : float → float.
Variable uniform : float → float → float.
Variable randint : Z → Z → Z.
Variable exc_str : PyExc → string.
Variable insert_one : YieldResult → outcome string.

(** X10.  A value of the vocabulary is encoded as its position in
    [classes_]: the code is below the number of classes, reading
    [classes_] at the code gives the value back, and two values of the
    vocabulary with the same code are the same value. *)
Theorem X10_known_value_round_trip (le : LabelEncoder) (s : pystr) :
  s ∈ classes_ le →
  (encode_value le (PStr s) < length (classes_ le))%nat
  ∧ classes_ le !! encode_value le (PStr s) = Some s
  ∧ ∀ s', s' ∈ classes_ le →
          encode_value le (PStr s') = encode_value le (PStr s) → s' = s.
Proof.
  intros Hs.
  assert (Hlook : ∀ t, t ∈ classes_ le →
            classes_ le !! encode_value le (PStr t) = Some t).
  { intros t Ht. simpl. rewrite bool_decide_eq_true_2 by exact Ht.
    apply index_of_lookup, Ht. }
  split; [eapply lookup_lt_Some, Hlook, Hs|].
  split; [apply Hlook, Hs|].
  intros s' Hs' E. pose proof (Hlook s' Hs') as H1. rewrite E in H1.
  rewrite (Hlook s Hs) in H1. congruence.
Qed.

(** X11.  The default code 0 is also the code of the first class: the
    frame handed to the estimator for a request whose value of a feature
    is outside the vocabulary is the frame of the same request with the
    first class of that feature in its place. *)
Theorem X11_unknown_value_frame_of_first_class
    (self : YieldPredictor Model) (input_data : gmap string PyVal)
    (feature : string) (le : LabelEncoder) (c : pystr) (rest : list pystr)
    (v : PyVal) :
  label_encoders Model self !! feature = Some le →
  classes_ le = c :: rest →
  input_data !! feature = Some v →
  (∀ s, v = PStr s → s ∉ classes_ le) →
  encode_row Model self input_data
  = encode_row Model self (<[feature := PStr c]> input_data).
Proof.
  intros Hle Hc Hv Habs. unfold encode_row.
  assert (Havail : available_features input_data
                   = available_features (<[feature := PStr c]> input_data)).
  { unfold available_features. apply filter_ext_in. intros f _.
    destruct (decide (f = feature)) as [->|Hne].
    - rewrite lookup_insert_eq, Hv. split; eauto.
    - rewrite lookup_insert_ne by congruence. reflexivity. }
  rewrite <- Havail. apply map_ext. intros f. f_equal.
  unfold encode_cell. destruct (decide (f = feature)) as [->|Hne].
  - rewrite lookup_insert_eq, Hle, Hv. simpl.
    rewrite (encode_value_unknown le v Habs), Hc.
    rewrite bool_decide_eq_true_2 by left. simpl.
    rewrite bool_decide_eq_true_2 by reflexivity. reflexivity.
  - rewrite lookup_insert_ne by congruence. reflexivity.
Qed.

(** X12.  When the model file loads and the encoders file does not,
    [predict] returns [None] but keeps the model: the predictor is left
    with the model in memory and the encoders it had, and no later call
    reads the files again, so the encoders are never loaded. *)
Theorem X12_failed_encoder_load_not_retried
    (self : YieldPredictor Model) (files files' : Files Model)
    (input_data input_data' : gmap string PyVal) (m : Model) (e : PyExc) :
  model Model self = None →
  yield_model_pkl Model files = Return m →
  yield_encoders_pkl Model files = Raise e →
  let self1 := fst (predict Model model_predict round2 uniform randint
                      self files input_data) in
  snd (predict Model model_predict round2 uniform randint
         self files input_data) = None
  ∧ model Model self1 = Some m
  ∧ label_encoders Model self1 = label_encoders Model self
  ∧ is_trained_on_real_data Model self1
    = is_trained_on_real_data Model self
  ∧ predict Model model_predict round2 uniform randint
      self1 files' input_data'
    = (self1,
       serve Model model_predict round2 uniform randint
         self1 m input_data').
Proof.
  intros Hm Hmod Henc self1.
  assert (E : predict Model model_predict round2 uniform randint
                self files input_data
              = ({| model := Some m;
                    label_encoders := label_encoders Model self;
                    is_trained_on_real_data :=
                      is_trained_on_real_data Model self |}, None)).
  { unfold predict. rewrite Hm, Hmod, Henc. reflexivity. }
  subst self1. rewrite E. simpl.
  repeat split; reflexivity.
Qed.

(** X13.  With the model in memory, a request that lacks soil_type,
    irrigation_source or season gets [None], whatever the estimator
    answers: the [KeyError] of [_generate_recommendations] ends in the
    [except] of [predict]. *)
Theorem X13_missing_advice_key_none
    (self : YieldPredictor Model) (files : Files Model)
    (input_data : gmap string PyVal) (m : Model) (k : string) :
  model Model self = Some m →
  k ∈ advice_keys →
  input_data !! k = None →
  predict Model model_predict round2 uniform randint self files input_data
  = (self, None).
Proof.
  intros Hm Hk Hnone. unfold predict. rewrite Hm. f_equal.
  unfold serve.
  destruct (model_predict m (encode_row Model self input_data)) as [y|];
    [|reflexivity].
  simpl. unfold _generate_recommendations, getitem, advice_keys in *.
  repeat (apply elem_of_cons in Hk as [->|Hk]);
    [| | |inversion Hk]; rewrite Hnone; simpl.
  - reflexivity.
  - destruct (input_data !! "soil_type"); reflexivity.
  - destruct (input_data !! "soil_type"); simpl;
      [destruct (input_data !! "irrigation_source")|]; reflexivity.
Qed.

(** X14.  A request in which a required field is absent or falsy is
    refused with status 400 and a detail that names the first such field
    in the order crop_name, soil_type, season, irrigation_source, state,
    district; the predictor is not called and keeps its state. *)
Theorem X14_route_400_first_missing_field
    (self : YieldPredictor Model) (files : Files Model)
    (yield_data : gmap string PyVal) (field : string) :
  first_such (unusable yield_data) required_fields field →
  predict_yield_route Model model_predict round2 uniform randint
    exc_str insert_one self files yield_data
  = (self, HTTPException 400 ("Missing required field: " ++ field)%string).
Proof.
  intros Hfirst. unfold predict_yield_route, first_missing.
  rewrite (find_first_such _ (unusable yield_data) _ field
             (unusable_test yield_data) Hfirst).
  reflexivity.
Qed.

(** X15.  The route answers success only for a request whose six required
    fields are present and truthy, with the result [predict] returned for
    the model features of the request, and with the id under which the
    store inserted that result. *)
Theorem X15_route_success_only_when_stored
    (self self' : YieldPredictor Model) (files : Files Model)
    (yield_data : gmap string PyVal) (r : YieldResult) (id : string) :
  predict_yield_route Model model_predict round2 uniform randint
    exc_str insert_one self files yield_data
  = (self', Success r id) →
  Forall (fun field => ¬ unusable yield_data field) required_fields
  ∧ predict Model model_predict round2 uniform randint
      self files (model_input yield_data)
    = (self', Some r)
  ∧ insert_one r = Return id.
Proof.
  unfold predict_yield_route, first_missing.
  destruct (List.find _ required_fields) as [field|] eqn:Hfind;
    [discriminate|].
  destruct (predict Model model_predict round2 uniform randint self files
              (model_input yield_data)) as [self1 [r1|]];
    [|discriminate].
  destruct (insert_one r1) as [id1|e1] eqn:Hins; [|discriminate].
  intros [= <- <- <-]. split; [|split; [reflexivity | exact Hins]].
  apply List.Forall_forall. intros field Hfield Hun.
  pose proof (find_none _ _ Hfind field Hfield) as Hb. simpl in Hb.
  apply unusable_test in Hun. rewrite Hun in Hb. discriminate.
Qed.

(** X16.  The dict the route hands to [predict] holds the six model
    features of the request, each with the value of the request, and no
    other key: a user_id or any further field of the body never reaches
    the model. *)
Theorem X16_model_input_keeps_model_features
    (yield_data : gmap string PyVal) (k : string) :
  model_input yield_data !! k
  = if bool_decide (k ∈ model_features) then yield_data !! k else None.
Proof.
  unfold model_input. rewrite fold_features_lookup, lookup_empty.
  destruct (bool_decide (k ∈ model_features)); [|reflexivity].
  destruct (yield_data !! k); reflexivity.
Qed.

(** X17.  With the model in memory, an encoder for each feature, an
    estimator that answers on frames of codes and a store that accepts
    the result, every request whose six required fields are non-empty
    strings is answered with success, whether or not the strings are in
    the vocabularies; the predictor keeps its state.  (A field that holds
    a value other than a string is outside this statement.) *)
Theorem X17_route_success_for_valid_request
    (self : YieldPredictor Model) (files : Files Model)
    (yield_data : gmap string PyVal) (m : Model) :
  model Model self = Some m →
  Forall (fun f => is_Some (label_encoders Model self !! f)) features →
  (∀ row, numeric_row row → ∃ y, model_predict m row = Return y) →
  (∀ r, ∃ id, insert_one r = Return id) →
  Forall (fun field => ∃ s, yield_data !! field = Some (PStr s) ∧ s ≠ [])
    required_fields →
  ∃ r id,
    predict_yield_route Model model_predict round2 uniform randint
      exc_str insert_one self files yield_data
    = (self, Success r id).
Proof.
  intros Hm Henc Hest Hstore Hstr.
  assert (Hreq : Forall (fun field => ¬ unusable yield_data field)
                   required_fields).
  { eapply Forall_impl; [exact Hstr|]. intros field (s & Hs & Hne) Hun.
    specialize (Hun _ Hs). simpl in Hun.
    rewrite bool_decide_eq_false_2 in Hun by exact Hne. discriminate. }
  assert (Hin : Forall (fun f => is_Some (model_input yield_data !! f))
                  features).
  { apply List.Forall_forall. intros f Hf.
    unfold model_input. rewrite fold_features_lookup, lookup_empty.
    rewrite bool_decide_eq_true_2 by (apply list_elem_of_In, Hf).
    rewrite List.Forall_forall in Hreq.
    destruct (usable_present yield_data f) as [v Hv].
    { apply Hreq. unfold features, required_fields in *. simpl in *. tauto. }
    rewrite Hv. eauto. }
  pose proof (encode_row_numeric Model self _ Hin Henc) as Hnum.
  destruct (Hest _ Hnum) as [y Hy].
  destruct (serve_some Model model_predict round2 uniform randint
              self m _ y Hy Hin) as (r & Hr & _).
  destruct (Hstore r) as [id Hid].
  exists r, id. unfold predict_yield_route.
  assert (Hnone : first_missing yield_data = None).
  { unfold first_missing.
    destruct (List.find _ required_fields) as [field|] eqn:Hfind;
      [|reflexivity].
    apply find_some in Hfind as [Hfield Hb]. exfalso.
    rewrite List.Forall_forall in Hreq.
    apply (Hreq field Hfield), unusable_test, Hb. }
  rewrite Hnone. unfold predict. rewrite Hm, Hr, Hid. reflexivity.
Qed.

End YieldExtras.

Section YieldExtraWitnesses.

Import Yield CropSpec ExtraSpec Examples.

Lemma X10_witness :
  classes_ (mkLabelEncoder [str "Gangavathi"; str "Siruguppa"])
  !! encode_value (mkLabelEncoder [str "Gangavathi"; str "Siruguppa"])
       (PStr (str "Siruguppa"))
  = Some (str "Siruguppa").
Proof.
  apply (X10_known_value_round_trip
           (mkLabelEncoder [str "Gangavathi"; str "Siruguppa"])
           (str "Siruguppa")).
  vm_compute. right. left.
Defined.

(** A district the encoder never saw is encoded as Gangavathi is. *)
Lemma X11_witness :
  encode_row unit loaded_predictor (yield_input "Atlantis")
  = encode_row unit loaded_predictor
      (<["district" := (PStr (str "Gangavathi"))]> (yield_input "Atlantis")).
Proof.
  apply (X11_unknown_value_frame_of_first_class unit loaded_predictor
           (yield_input "Atlantis") "district"
           (mkLabelEncoder [str "Gangavathi"; str "Siruguppa"])
           (str "Gangavathi") [str "Siruguppa"] (PStr (str "Atlantis"))).
  - vm_compute. reflexivity.
  - reflexivity.
  - vm_compute. reflexivity.
  - intros s [= <-]. vm_compute. intros H.
    repeat (apply elem_of_cons in H as [H|H]; [discriminate|]).
    inversion H.
Defined.

(** After a load in which only the model file was readable, a call made
    when both files are readable still gets [None]: the frame keeps the
    raw strings, on which the stand-in estimator raises. *)
Lemma X12_witness :
  snd (predict unit toy_predict (fun x => x) (fun lo hi => lo)
         (fun lo hi => lo)
         (fst (predict unit toy_predict (fun x => x) (fun lo hi => lo)
                 (fun lo hi => lo) (init unit) model_file_only
                 (yield_input "Siruguppa")))
         both_files (yield_input "Siruguppa"))
  = None.
Proof.
  pose proof (X12_failed_encoder_load_not_retried unit toy_predict
                (fun x => x) (fun lo hi => lo) (fun lo hi => lo)
                (init unit) model_file_only both_files
                (yield_input "Siruguppa") (yield_input "Siruguppa")
                tt IOError eq_refl eq_refl eq_refl) as H.
  cbv zeta in H. destruct H as (_ & _ & _ & _ & H).
  rewrite H. vm_compute. reflexivity.
Defined.

Lemma X13_witness :
  predict unit toy_predict (fun x => x) (fun lo hi => lo) (fun lo hi => lo)
    loaded_predictor no_files (delete "season" (yield_input "Siruguppa"))
  = (loaded_predictor, None).
Proof.
  apply (X13_missing_advice_key_none unit toy_predict (fun x => x)
           (fun lo hi => lo) (fun lo hi => lo) loaded_predictor no_files
           (delete "season" (yield_input "Siruguppa")) tt "season").
  - reflexivity.
  - vm_compute. right. right. left.
  - vm_compute. reflexivity.
Defined.

(** An empty soil type in a body that has its crop name. *)
Lemma X14_witness :
  predict_yield_route unit toy_predict (fun x => x) (fun lo hi => lo)
    (fun lo hi => lo) toy_exc_str toy_insert_one loaded_predictor no_files
    (<["soil_type" := (PStr [])]> (yield_input "Siruguppa"))
  = (loaded_predictor,
     HTTPException 400 "Missing required field: soil_type").
Proof.
  apply (X14_route_400_first_missing_field unit toy_predict (fun x => x)
           (fun lo hi => lo) (fun lo hi => lo) toy_exc_str toy_insert_one
           loaded_predictor no_files
           (<["soil_type" := (PStr [])]> (yield_input "Siruguppa"))
           "soil_type").
  exists ["crop_name"],
    ["season"; "irrigation_source"; "state"; "district"].
  split; [reflexivity|]. split.
  - intros v Hv. vm_compute in Hv. injection Hv as <-. reflexivity.
  - constructor; [|constructor]. intros Hun.
    specialize (Hun (PStr (str "Paddy"))). vm_compute in Hun.
    specialize (Hun eq_refl). discriminate.
Defined.

Lemma X15_witness :
  Forall (fun field => ¬ unusable (yield_input "Siruguppa") field)
    required_fields.
Proof.
  refine (proj1 (X15_route_success_only_when_stored unit toy_predict
                   (fun x => x) (fun lo hi => lo) (fun lo hi => lo)
                   toy_exc_str toy_insert_one loaded_predictor _ no_files
                   (yield_input "Siruguppa") _ _ _)).
  vm_compute. reflexivity.
Defined.

(** A request for a district outside the vocabulary is served. *)
Lemma X17_witness :
  ∃ r id,
    predict_yield_route unit toy_predict (fun x => x) (fun lo hi => lo)
      (fun lo hi => lo) toy_exc_str toy_insert_one loaded_predictor no_files
      (yield_input "Atlantis")
    = (loaded_predictor, Success r id).
Proof.
  apply (X17_route_success_for_valid_request unit toy_predict (fun x => x)
           (fun lo hi => lo) (fun lo hi => lo) toy_exc_str toy_insert_one
           loaded_predictor no_files (yield_input "Atlantis") tt).
  - reflexivity.
  - repeat constructor; vm_compute; eexists; reflexivity.
  - intros row [_ Hcodes]. exists 2.5%float. unfold toy_predict.
    assert (E : forallb (fun fc => match snd fc with
                                   | Code _ => true
                                   | Raw _ => false
                                   end) row = true).
    { apply forallb_forall. rewrite List.Forall_forall in Hcodes.
      intros fc Hfc. destruct (Hcodes fc Hfc) as [n ->]. reflexivity. }
    rewrite E. reflexivity.
  - intros r. exists "id". reflexivity.
  - repeat constructor; eexists; (split; [vm_compute; reflexivity|]);
      discriminate.
Defined.

End YieldExtraWitnesses.
